(** * wah4pc: the interoperability pipeline, the hospital delivery queue
      and the clinic

    Three programs of the repository are embedded here.

    - [Interop]: the Python translation service of
      [blueprint-interop.md] ([convert_hl7_to_fhir],
      [validate_fhir_patient], [translate_data]).
    - [Hospital]: the Express server of the receiving hospital
      ([loadJsonFile], [saveJsonFile], [extractPatientDetails] and the
      handlers of [/fhir/patient], [/api/process-pending], [/api/search]),
      each handler as it runs when no other request overlaps it.
      [HospitalRuns] has the steps of the handlers between their
      [await]s, for requests that overlap, and [express.json()].
    - [Clinic]: the Express server of the sending clinic
      ([formatDateOfBirth] and the handlers of [/api/patients] and
      [/api/send-record]).

    Python and JavaScript strings are modelled as [string]; every
    character of the model is one [ascii]. *)

From Stdlib Require Import String Ascii List ZArith Bool Arith Lia.
From Stdlib Require Import DecimalString DecimalNat.
Import ListNotations.
Open Scope string_scope.
Set Warnings "-register-all".

(** ** Strings shared by both programs *)

(** [s[lo:hi]] of Python and [s.slice(lo, hi)] of JavaScript for
    [0 <= lo <= hi]: the characters at positions [lo .. hi-1] that exist.
    Neither language raises when the range leaves the string. *)
Definition str_slice (lo hi : nat) (s : string) : string :=
  substring lo (hi - lo) s.

(** ** The translation service (Python) *)

Module Interop.

(** Values that reach the service as JSON. *)
Inductive PyVal :=
| PyNone
| PyBool (b : bool)
| PyInt (z : Z)
| PyFloat (mantissa exponent : Z)
| PyStr (s : string)
| PyList (l : list PyVal)
| PyDict (d : list (string * PyVal)).

(** A [dict] with string keys, as an association list in insertion order. *)
Definition dict := list (string * PyVal).

(** The exceptions of the model; every one of them derives from Python's
    [Exception]. [KeyError] carries the [repr] of the missing key, which
    is what [str(e)] prints. *)
Inductive exn :=
| KeyError (key_repr : string)
| IndexError (msg : string)
| TypeError (msg : string)
| AttributeError (msg : string)
| AssertionError
| ValueError (msg : string)
| OtherException (msg : string).

Inductive Exc (A : Type) :=
| Ok (a : A)
| Raise (e : exn).
Arguments Ok {A} a.
Arguments Raise {A} e.

Definition bind {A B} (c : Exc A) (k : A -> Exc B) : Exc B :=
  match c with
  | Ok a => k a
  | Raise e => Raise e
  end.

Notation "x <- c ;; k" := (bind c (fun x => k))
  (at level 61, c at next level, right associativity).

(** [try: body except (classes) as e: handler e]. *)
Definition try_except {A} (body : Exc A) (catches : exn -> bool)
    (handler : exn -> Exc A) : Exc A :=
  match body with
  | Ok a => Ok a
  | Raise e => if catches e then handler e else Raise e
  end.

(** [str(e)]. *)
Definition str_exn (e : exn) : string :=
  match e with
  | KeyError k => k
  | IndexError m | TypeError m | AttributeError m | ValueError m
  | OtherException m => m
  | AssertionError => ""
  end.

(** [repr] of a key literal of the source (no quote or escape in it). *)
Definition repr_key (k : string) : string := "'" ++ k ++ "'".

Fixpoint lookup (k : string) (d : dict) : option PyVal :=
  match d with
  | [] => None
  | (k', v) :: d' => if String.eqb k k' then Some v else lookup k d'
  end.

(** [d.get(k)]: the value, or [None] when the key is absent. *)
Definition dict_get (d : dict) (k : string) : PyVal :=
  match lookup k d with
  | Some v => v
  | None => PyNone
  end.

(** [d[k]]: raises [KeyError] when the key is absent. *)
Definition dict_item (d : dict) (k : string) : Exc PyVal :=
  match lookup k d with
  | Some v => Ok v
  | None => Raise (KeyError (repr_key k))
  end.

Definition type_name (v : PyVal) : string :=
  match v with
  | PyNone => "NoneType"
  | PyBool _ => "bool"
  | PyInt _ => "int"
  | PyFloat _ _ => "float"
  | PyStr _ => "str"
  | PyList _ => "list"
  | PyDict _ => "dict"
  end.

Definition not_subscriptable (v : PyVal) : exn :=
  TypeError ("'" ++ type_name v ++ "' object is not subscriptable").

(** What the source takes from outside the repository.
    - [py_format v]: [format(v, '')] of a value that is not a [str].
    - [slice_hashable]: whether [slice] objects are hashable (they are from
      Python 3.12 on, so that subscripting a [dict] with a slice raises
      [KeyError] there and [TypeError] before).
    - [from_data_error v]: the exception that fhirpy's
      [Resource.from_data(v)] raises on a structure it refuses, [None]
      when it builds the resource. *)
Class Runtime := {
  py_format : PyVal -> string;
  slice_hashable : bool;
  from_data_error : PyVal -> option exn
}.

Section Service.

Context {R : Runtime}.

(** A replacement field [{v}] of an f-string. *)
Definition fmt (v : PyVal) : string :=
  match v with
  | PyStr s => s
  | _ => py_format v
  end.

(** [v[lo:hi]] for the literal bounds of the source. *)
Definition slice (v : PyVal) (lo hi : nat) (slice_repr : string) : Exc PyVal :=
  match v with
  | PyStr s => Ok (PyStr (str_slice lo hi s))
  | PyList l => Ok (PyList (firstn (hi - lo) (skipn lo l)))
  | PyDict _ =>
      if slice_hashable then Raise (KeyError slice_repr)
      else Raise (TypeError "unhashable type: 'slice'")
  | _ => Raise (not_subscriptable v)
  end.

(** The f-string of the [birthDate] entry:
    [f"{d['dateOfBirth'][0:4]}-{d['dateOfBirth'][4:6]}-{d['dateOfBirth'][6:8]}"]. *)
Definition birth_date (hl7_data : dict) : Exc string :=
  d1 <- dict_item hl7_data "dateOfBirth" ;;
  y <- slice d1 0 4 "slice(0, 4, None)" ;;
  d2 <- dict_item hl7_data "dateOfBirth" ;;
  m <- slice d2 4 6 "slice(4, 6, None)" ;;
  d3 <- dict_item hl7_data "dateOfBirth" ;;
  d <- slice d3 6 8 "slice(6, 8, None)" ;;
  Ok (fmt y ++ "-" ++ fmt m ++ "-" ++ fmt d).

Definition is_KeyError_or_IndexError (e : exn) : bool :=
  match e with
  | KeyError _ | IndexError _ => true
  | _ => false
  end.

(** [convert_hl7_to_fhir(hl7_data)]. *)
Definition convert_hl7_to_fhir (hl7_data : dict) : Exc PyVal :=
  try_except
    (let identifier :=
       PyList [PyDict [("system", PyStr "urn:clinic:patient-id");
                       ("value", dict_get hl7_data "patientId")]] in
     let name :=
       PyList [PyDict [("family", dict_get hl7_data "lastName");
                       ("given", PyList [dict_get hl7_data "firstName"])]] in
     b <- birth_date hl7_data ;;
     Ok (PyDict [("resourceType", PyStr "Patient");
                 ("identifier", identifier);
                 ("name", name);
                 ("birthDate", PyStr b)]))
    is_KeyError_or_IndexError
    (fun e => Raise (ValueError ("Missing or malformed HL7 data: " ++ str_exn e))).

(** *** validation_service.py *)

(** fhirpy resources are dictionaries whose attributes read their keys:
    [r.a] is [r['a']], and an absent key raises [AttributeError]. *)
Definition getattr (v : PyVal) (a : string) : Exc PyVal :=
  match v with
  | PyDict d =>
      match lookup a d with
      | Some x => Ok x
      | None => Raise (AttributeError a)
      end
  | _ => Raise (AttributeError
                  ("'" ++ type_name v ++ "' object has no attribute '" ++ a ++ "'"))
  end.

(** [Resource.from_data(fhir_data)]: the resource over the same data,
    unless the library refuses the structure. *)
Definition from_data (fhir_data : PyVal) : Exc PyVal :=
  match from_data_error fhir_data with
  | Some e => Raise e
  | None => Ok fhir_data
  end.

(** [v[0]]. *)
Definition item0 (v : PyVal) : Exc PyVal :=
  match v with
  | PyList (x :: _) => Ok x
  | PyList [] => Raise (IndexError "list index out of range")
  | PyStr (String c _) => Ok (PyStr (String c EmptyString))
  | PyStr EmptyString => Raise (IndexError "string index out of range")
  | PyDict _ => Raise (KeyError "0")
  | _ => Raise (not_subscriptable v)
  end.

(** [assert c]. *)
Definition py_assert (c : bool) : Exc unit :=
  if c then Ok tt else Raise AssertionError.

(** [v == "..."] against a string literal. *)
Definition eq_str (v : PyVal) (s : string) : bool :=
  match v with
  | PyStr s' => String.eqb s' s
  | _ => false
  end.

Definition is_not_None (v : PyVal) : bool :=
  match v with
  | PyNone => false
  | _ => true
  end.

(** The [try] block of [validate_fhir_patient]. *)
Definition validate_body (fhir_data : PyVal) : Exc bool :=
  Patient <- from_data fhir_data ;;
  rt <- getattr Patient "resourceType" ;;
  _ <- py_assert (eq_str rt "Patient") ;;
  names <- getattr Patient "name" ;;
  name0 <- item0 names ;;
  family <- getattr name0 "family" ;;
  _ <- py_assert (is_not_None family) ;;
  Ok true.

(** [validate_fhir_patient(fhir_data)]: [except Exception: return False]. *)
Definition validate_fhir_patient (fhir_data : PyVal) : Exc bool :=
  try_except (validate_body fhir_data) (fun _ => true) (fun _ => Ok false).

(** *** main.py *)

Definition tool := dict -> Exc PyVal.

Definition AVAILABLE_TOOLS : list (string * tool) :=
  [("convert_hl7_to_fhir", convert_hl7_to_fhir)].

(** [v[k]] for a string key [k]. *)
Definition item (v : PyVal) (k : string) : Exc PyVal :=
  match v with
  | PyDict d => dict_item d k
  | PyList _ => Raise (TypeError "list indices must be integers or slices, not str")
  | PyStr _ => Raise (TypeError "string indices must be integers")
  | _ => Raise (not_subscriptable v)
  end.

(** [tool_name in AVAILABLE_TOOLS] together with
    [AVAILABLE_TOOLS[tool_name]]: the registered entry, if any. A list
    or a dict cannot be hashed. *)
Definition find_tool (tool_name : PyVal) : Exc (option (string * tool)) :=
  match tool_name with
  | PyStr s => Ok (find (fun t => String.eqb s (fst t)) AVAILABLE_TOOLS)
  | PyList _ | PyDict _ =>
      Raise (TypeError ("unhashable type: '" ++ type_name tool_name ++ "'"))
  | _ => Ok None
  end.

(** How a call of the endpoint ends. *)
Inductive Response :=
| TranslationResponse (status : string) (translated_data : PyVal)
| HTTPException (status_code : Z) (detail : string)
| Unhandled (e : exn).

(** The first [try] block of [translate_data]: the name of the tool the
    AI asks for. *)
Definition requested_tool (ai_response : Exc PyVal) : Exc PyVal :=
  r <- ai_response ;;
  choices <- item r "choices" ;;
  choice <- item0 choices ;;
  message <- item choice "message" ;;
  tool_calls <- item message "tool_calls" ;;
  tool_call <- item0 tool_calls ;;
  function <- item tool_call "function" ;;
  item function "name".

(** [translate_data(request)]. [ai_response] is what
    [get_ai_translation_instruction(request.data)] returns or raises. The
    first component lists the translation tools that were called. *)
Definition translate_data (ai_response : Exc PyVal) (request_data : dict)
    : list string * Response :=
  match requested_tool ai_response with
  | Raise e => ([], HTTPException 500 ("AI service error: " ++ str_exn e))
  | Ok tool_name =>
      match find_tool tool_name with
      | Raise e => ([], Unhandled e)
      | Ok None =>
          ([], HTTPException 400
                 ("Unknown tool requested by AI: " ++ fmt tool_name))
      | Ok (Some (name, function_to_call)) =>
          match function_to_call request_data with
          | Raise (ValueError m) =>
              ([name], HTTPException 400 ("Translation error: " ++ m))
          | Raise e => ([name], Unhandled e)
          | Ok translated_data =>
              match validate_fhir_patient translated_data with
              | Raise e => ([name], Unhandled e)
              | Ok false =>
                  ([name], HTTPException 500
                     "Validation Failed: AI produced an invalid FHIR resource.")
              | Ok true =>
                  ([name], TranslationResponse "success" translated_data)
              end
          end
      end
  end.

End Service.

(** A runtime for concrete runs: Python 3.9 ([slice] not hashable) and a
    [from_data] that builds a resource from every structure. No run
    below formats a value that is not a string. *)
Definition lenient_runtime : Runtime :=
  {| py_format := fun _ => "";
     slice_hashable := false;
     from_data_error := fun _ => None |}.

(** The payload of the end-to-end example of the specification. *)
Definition juan : dict :=
  [("patientId", PyStr "C123"); ("firstName", PyStr "Juan");
   ("lastName", PyStr "Dela Cruz"); ("dateOfBirth", PyStr "19800101")].

(** An answer of the AI service that asks for the tool [name]. *)
Definition ai_asks_for (name : PyVal) : Exc PyVal :=
  Ok (PyDict [("choices", PyList [PyDict [("message", PyDict
       [("tool_calls", PyList [PyDict [("function", PyDict
          [("name", name)])]])])]])]).

(** The values that Python hashes, so that [in] looks them up in a
    [dict]: every value of a parsed JSON text but a list and a dict. *)
Definition hashable (v : PyVal) : bool :=
  match v with
  | PyList _ | PyDict _ => false
  | _ => true
  end.

(** The first name block of a resource, when it has one. *)
Definition name_block (fhir_data : PyVal) : option dict :=
  match fhir_data with
  | PyDict d =>
      match lookup "name" d with
      | Some (PyList (PyDict n :: _)) => Some n
      | _ => None
      end
  | _ => None
  end.

End Interop.

(** ** The receiving hospital's server (JavaScript) *)

Module Hospital.

(** [toLowerCase] on the characters of the model: the letters [A]-[Z]
    go to [a]-[z], every other character is kept. *)
Definition lower_char (c : ascii) : ascii :=
  let n := nat_of_ascii c in
  if (65 <=? n)%nat && (n <=? 90)%nat then ascii_of_nat (n + 32) else c.

Fixpoint toLowerCase (s : string) : string :=
  match s with
  | EmptyString => EmptyString
  | String c s' => String (lower_char c) (toLowerCase s')
  end.

(** [s.includes(t)]: [t] occurs in [s] at some position. *)
Fixpoint includes (s t : string) : bool :=
  if prefix t s then true
  else match s with
       | EmptyString => false
       | String _ s' => includes s' t
       end.

(** JavaScript numbers are not represented; the model takes from the
    language what the server needs of them: whether a number is truthy
    (neither zero nor NaN), whether it is [> 0], its [ToString], and
    whether a string converts to a number [> 0]. *)
Class JSNumber := {
  number : Type;
  number_truthy : number -> bool;
  number_gt_zero : number -> bool;
  number_to_string : number -> string;
  string_gt_zero : string -> bool
}.

(** A completion: a value, or a thrown error. *)
Inductive Completion (A : Type) :=
| Normal (a : A)
| Throw (error : string).
Arguments Normal {A} a.
Arguments Throw {A} error.

Definition andThen {A B} (c : Completion A) (k : A -> Completion B)
    : Completion B :=
  match c with
  | Normal a => k a
  | Throw e => Throw e
  end.

Section Server.

Context {N : JSNumber}.

(** What [express.json()] and [req.query] hand to a handler, and
    [undefined]. An object lists its own properties in insertion order. *)
Inductive JSValue :=
| JUndefined
| JNull
| JBool (b : bool)
| JNum (n : number)
| JStr (s : string)
| JArr (l : list JSValue)
| JObj (fields : list (string * JSValue)).

Notation "x <- c ;; k" := (andThen c (fun x => k))
  (at level 61, c at next level, right associativity).

Fixpoint own (k : string) (fields : list (string * JSValue)) : option JSValue :=
  match fields with
  | [] => None
  | (k', v) :: rest => if String.eqb k k' then Some v else own k rest
  end.

(** [v.k] for the property names the server reads ([identifier], [value],
    [name], [family], [given], [birthDate], [gender]): none of them is on
    a prototype, so only an object's own property answers. *)
Definition get (v : JSValue) (k : string) : Completion JSValue :=
  match v with
  | JUndefined | JNull =>
      Throw ("TypeError: Cannot read properties of null or undefined (reading '"
             ++ k ++ "')")
  | JObj fields =>
      match own k fields with
      | Some x => Normal x
      | None => Normal JUndefined
      end
  | _ => Normal JUndefined
  end.

(** [v[0]]. *)
Definition get0 (v : JSValue) : Completion JSValue :=
  match v with
  | JUndefined | JNull =>
      Throw "TypeError: Cannot read properties of null or undefined (reading '0')"
  | JArr (x :: _) => Normal x
  | JStr (String c _) => Normal (JStr (String c EmptyString))
  | JObj fields =>
      match own "0" fields with
      | Some x => Normal x
      | None => Normal JUndefined
      end
  | _ => Normal JUndefined
  end.

(** ToBoolean. *)
Definition truthy (v : JSValue) : bool :=
  match v with
  | JUndefined | JNull => false
  | JBool b => b
  | JNum n => number_truthy n
  | JStr s => negb (String.eqb s "")
  | JArr _ | JObj _ => true
  end.

(** [a || b] with both operands already evaluated ([b] is a literal
    everywhere in the source). *)
Definition or_else (a b : JSValue) : JSValue :=
  if truthy a then a else b.

Definition cannot_convert : string :=
  "TypeError: Cannot convert object to primitive value".

(** ToString. An array joins its elements with commas, [null] and
    [undefined] elements as the empty string. An object is
    ["[object Object]"], unless an own property [toString] hides the
    method: no value of a parsed body is callable, and the conversion
    throws. *)
Fixpoint to_string (v : JSValue) : Completion string :=
  match v with
  | JUndefined => Normal "undefined"
  | JNull => Normal "null"
  | JBool true => Normal "true"
  | JBool false => Normal "false"
  | JNum n => Normal (number_to_string n)
  | JStr s => Normal s
  | JArr l =>
      let element x :=
        match x with
        | JUndefined | JNull => Normal ""
        | _ => to_string x
        end in
      (fix join (l : list JSValue) : Completion string :=
         match l with
         | [] => Normal ""
         | [x] => element x
         | x :: rest =>
             a <- element x ;;
             b <- join rest ;;
             Normal (a ++ "," ++ b)
         end) l
  | JObj fields =>
      match own "toString" fields with
      | Some _ => Throw cannot_convert
      | None => Normal "[object Object]"
      end
  end.

(** [v > 0]. *)
Definition gt_zero (v : JSValue) : Completion bool :=
  match v with
  | JUndefined | JNull => Normal false
  | JBool b => Normal b
  | JNum n => Normal (number_gt_zero n)
  | JStr s => Normal (string_gt_zero s)
  | JArr _ | JObj _ =>
      s <- to_string v ;;
      Normal (string_gt_zero s)
  end.

(** [v.length > 0] for a [v] that is neither [null] nor [undefined]. *)
Definition length_gt_zero (v : JSValue) : Completion bool :=
  match v with
  | JArr l => Normal (0 <? List.length l)%nat
  | JStr s => Normal (0 <? String.length s)%nat
  | _ => len <- get v "length" ;; gt_zero len
  end.

(** [v && v.length > 0] as a condition. *)
Definition non_empty (v : JSValue) : Completion bool :=
  if truthy v then length_gt_zero v else Normal false.

Record PatientDetails := {
  patient_id : JSValue;
  given_name : JSValue;
  family_name : JSValue;
  full_name : string;
  birth_date : JSValue;
  gender : JSValue;
  original_fhir : JSValue
}.

Definition Unknown : JSValue := JStr "Unknown".

(** The [try] block of [extractPatientDetails]. *)
Definition extract_body (fhirData : JSValue) : Completion PatientDetails :=
  identifier <- get fhirData "identifier" ;;
  has_id <- non_empty identifier ;;
  patientId <-
    (if has_id then
       identifier' <- get fhirData "identifier" ;;
       id0 <- get0 identifier' ;;
       value <- get id0 "value" ;;
       Normal (or_else value Unknown)
     else Normal Unknown) ;;
  name <- get fhirData "name" ;;
  has_name <- non_empty name ;;
  nameData <-
    (if has_name then name' <- get fhirData "name" ;; get0 name'
     else Normal (JObj [])) ;;
  family <- get nameData "family" ;;
  let familyName := or_else family Unknown in
  given <- get nameData "given" ;;
  let givenNames := or_else given (JArr [Unknown]) in
  given0 <- get0 givenNames ;;
  let givenName := or_else given0 Unknown in
  birthDate <- get fhirData "birthDate" ;;
  gender <- get fhirData "gender" ;;
  g <- to_string givenName ;;
  f <- to_string familyName ;;
  Normal {| patient_id := patientId;
            given_name := givenName;
            family_name := familyName;
            full_name := g ++ " " ++ f;
            birth_date := or_else birthDate Unknown;
            gender := or_else gender Unknown;
            original_fhir := fhirData |}.

(** The record of the [catch] block. *)
Definition error_details (fhirData : JSValue) : PatientDetails :=
  {| patient_id := JStr "Error";
     given_name := JStr "Error";
     family_name := JStr "Error";
     full_name := "Error processing patient data";
     birth_date := Unknown;
     gender := Unknown;
     original_fhir := fhirData |}.

(** [extractPatientDetails(fhirData)]. *)
Definition extractPatientDetails (fhirData : JSValue) : PatientDetails :=
  match extract_body fhirData with
  | Normal details => details
  | Throw _ => error_details fhirData
  end.

(** The record that [/fhir/patient] queues. *)
Record PendingRecord := {
  details : PatientDetails;
  received_timestamp : string;
  status : string
}.

(** The two JSON files of the server, [pending_queue.json] and
    [received_patients.json]; each holds the array the server wrote last
    (written and parsed back unchanged). *)
Record Store := {
  pending_queue : list PendingRecord;
  received_patients : list PendingRecord
}.

(** Whether each file operation of one request goes through. *)
Record IO := {
  load_pending_ok : bool;
  load_received_ok : bool;
  save_received_ok : bool;
  save_pending_ok : bool
}.

Definition io_ok : IO :=
  {| load_pending_ok := true; load_received_ok := true;
     save_received_ok := true; save_pending_ok := true |}.

(** [loadJsonFile(filePath)]: the parsed array, or [[]] when reading or
    parsing fails. *)
Definition loadJsonFile (file : list PendingRecord) (ok : bool)
    : list PendingRecord :=
  if ok then file else [].

(** [saveJsonFile(filePath, data)]: the file afterwards and the boolean
    returned; a failed write leaves the file as it was. *)
Definition saveJsonFile (file data : list PendingRecord) (ok : bool)
    : list PendingRecord * bool :=
  if ok then (data, true) else (file, false).

(** What a handler sends back: the three bodies of a 200 answer, and the
    body of a 500 answer. *)
Inductive Reply :=
| ReceiptAck (status message : string)
| ProcessAck (success : bool) (message : string)
| SearchResults (results : list PendingRecord)
| ServerError (error : string).

(** A number of records in a template literal. *)
Definition count_to_string (n : nat) : string :=
  NilZero.string_of_uint (Nat.to_uint n).

(** The end of the [try] block of [/fhir/patient], after the queue was
    saved. The template literal of the [console.log] line prints
    [full_name], a string, and [patient_id], any value of the body: when
    its conversion to a string throws, the [catch] block answers 500. The
    template literal of the answer prints [full_name] only. *)
Definition receipt_reply (patientDetails : PatientDetails) : Reply :=
  match to_string (patient_id patientDetails) with
  | Normal _ =>
      ReceiptAck "success"
        ("Patient data for " ++ full_name patientDetails
         ++ " received and pending review.")
  | Throw _ => ServerError "Failed to process patient data"
  end.

(** [POST /fhir/patient], served with no other request in between; [now]
    is [new Date().toISOString()] and [fhirData] is [req.body] as
    [express.json()] left it. The queue is saved before the log line is
    printed. *)
Definition post_fhir_patient (io : IO) (now : string) (fhirData : JSValue)
    (st : Store) : Store * Reply :=
  let patientDetails := extractPatientDetails fhirData in
  let pendingRecord :=
    {| details := patientDetails;
       received_timestamp := now;
       status := "pending" |} in
  let pendingQueue := loadJsonFile (pending_queue st) (load_pending_ok io) in
  let pendingQueue := (pendingQueue ++ [pendingRecord])%list in
  let saved := saveJsonFile (pending_queue st) pendingQueue (save_pending_ok io) in
  ({| pending_queue := fst saved; received_patients := received_patients st |},
   receipt_reply patientDetails).

(** [POST /api/process-pending], served with no other request in
    between. *)
Definition post_process_pending (io : IO) (st : Store) : Store * Reply :=
  let pendingPatients := loadJsonFile (pending_queue st) (load_pending_ok io) in
  let receivedPatients :=
    loadJsonFile (received_patients st) (load_received_ok io) in
  let receivedPatients := (receivedPatients ++ pendingPatients)%list in
  let saved_received :=
    saveJsonFile (received_patients st) receivedPatients (save_received_ok io) in
  let saved_pending :=
    saveJsonFile (pending_queue st) [] (save_pending_ok io) in
  ({| pending_queue := fst saved_pending;
      received_patients := fst saved_received |},
   ProcessAck true
     (count_to_string (List.length pendingPatients)
      ++ " records have been processed")).

(** [v.toLowerCase()]: only a string has the method. *)
Definition call_toLowerCase (v : JSValue) : Completion string :=
  match v with
  | JStr s => Normal (toLowerCase s)
  | JUndefined | JNull =>
      Throw "TypeError: Cannot read properties of null or undefined (reading 'toLowerCase')"
  | _ => Throw "TypeError: toLowerCase is not a function"
  end.

(** The callback of [patients.filter]. *)
Definition matches (searchTerm : string) (patient : PendingRecord)
    : Completion bool :=
  id <- call_toLowerCase (patient_id (details patient)) ;;
  if includes id searchTerm then Normal true
  else Normal (includes (toLowerCase (full_name (details patient))) searchTerm).

(** [patients.filter(callback)]: the first throw of the callback ends it. *)
Fixpoint filter_records (f : PendingRecord -> Completion bool)
    (patients : list PendingRecord) : Completion (list PendingRecord) :=
  match patients with
  | [] => Normal []
  | p :: rest =>
      keep <- f p ;;
      kept <- filter_records f rest ;;
      Normal (if keep then p :: kept else kept)
  end.

(** [GET /api/search]; [query] is [req.query.query]. *)
Definition get_search (io : IO) (query : JSValue) (st : Store) : Reply :=
  if negb (truthy query) then SearchResults []
  else
    let patients := loadJsonFile (received_patients st) (load_received_ok io) in
    match (searchTerm <- call_toLowerCase query ;;
           filter_records (matches searchTerm) patients) with
    | Normal results => SearchResults results
    | Throw _ => ServerError "Search failed"
    end.

(** [GET /api/pending] and [GET /api/patients]. *)
Definition get_pending (io : IO) (st : Store) : Reply :=
  SearchResults (loadJsonFile (pending_queue st) (load_pending_ok io)).

Definition get_patients (io : IO) (st : Store) : Reply :=
  SearchResults (loadJsonFile (received_patients st) (load_received_ok io)).

(** The requests that change the store. *)
Inductive Request :=
| Receive (now : string) (fhirData : JSValue)
| ProcessPending.

Definition handle (st : Store) (req : IO * Request) : Store :=
  match snd req with
  | Receive now fhirData => fst (post_fhir_patient (fst req) now fhirData st)
  | ProcessPending => fst (post_process_pending (fst req) st)
  end.

(** The store after the requests [reqs] were served one after the other,
    each one answered before the next arrives. The handlers are [async]
    and take no lock: requests that overlap are not runs of this kind,
    their steps are interleaved by [HospitalRuns.execute]. *)
Definition run (st : Store) (reqs : list (IO * Request)) : Store :=
  fold_left handle reqs st.

(** The store after [initializeDataFiles]. *)
Definition initial : Store :=
  {| pending_queue := []; received_patients := [] |}.

Definition fault_free (reqs : list (IO * Request)) : Prop :=
  Forall (fun req => fst req = io_ok) reqs.

Fixpoint receipt_stamps (reqs : list (IO * Request)) : list string :=
  match reqs with
  | [] => []
  | (_, Receive now _) :: rest => now :: receipt_stamps rest
  | (_, ProcessPending) :: rest => receipt_stamps rest
  end.

Definition disjoint (st : Store) : Prop :=
  forall r, In r (pending_queue st) -> In r (received_patients st) -> False.

(** [t] occurs in [s] when the case of letters is ignored. *)
Definition ci_contains (s t : string) : Prop :=
  exists before after, toLowerCase s = before ++ toLowerCase t ++ after.

(** The callback of [/api/search] on a record whose [patient_id] is a
    string. *)
Definition matches_text (searchTerm : string) (patient : PendingRecord) : bool :=
  match patient_id (details patient) with
  | JStr id =>
      includes (toLowerCase id) searchTerm
      || includes (toLowerCase (full_name (details patient))) searchTerm
  | _ => false
  end.

(** The translated resource of the end-to-end example. *)
Definition juan_fhir : JSValue :=
  JObj [("resourceType", JStr "Patient");
        ("identifier", JArr [JObj [("system", JStr "urn:clinic:patient-id");
                                   ("value", JStr "C123")]]);
        ("name", JArr [JObj [("family", JStr "Dela Cruz");
                             ("given", JArr [JStr "Juan"])]]);
        ("birthDate", JStr "1980-01-01")].

(** The clearing of the pending file fails, everything else goes through. *)
Definition io_clear_fails : IO :=
  {| load_pending_ok := true; load_received_ok := true;
     save_received_ok := true; save_pending_ok := false |}.

(** The run of the end-to-end example: the translated resource is
    received, then the pending records are processed. *)
Definition juan_received : list (IO * Request) :=
  [(io_ok, Receive "2025-06-01T08:00:00.000Z" juan_fhir)].

Definition juan_committed : list (IO * Request) :=
  [(io_ok, Receive "2025-06-01T08:00:00.000Z" juan_fhir);
   (io_ok, ProcessPending)].

(** The record that the first run queues. *)
Definition juan_record : PendingRecord :=
  {| details := extractPatientDetails juan_fhir;
     received_timestamp := "2025-06-01T08:00:00.000Z";
     status := "pending" |}.

Definition stamps (records : list PendingRecord) : list string :=
  map received_timestamp records.

End Server.

(** For concrete runs: bodies without numbers; no run below compares a
    string with a number. *)
Definition no_numbers : JSNumber :=
  {| number := Empty_set;
     number_truthy := fun n => match n with end;
     number_gt_zero := fun n => match n with end;
     number_to_string := fun n => match n with end;
     string_gt_zero := fun _ => false |}.

End Hospital.

(** ** Runs of the hospital server, continued *)

Module HospitalRuns.

Import Hospital.

Section Runs.

Context {N : JSNumber}.

(** The record that [/fhir/patient] builds for a body received at [now]. *)
Definition record_of (now : string) (fhirData : JSValue) : PendingRecord :=
  {| details := extractPatientDetails fhirData;
     received_timestamp := now;
     status := "pending" |}.

(** The records of the receipts of a run, in the order of arrival. *)
Fixpoint receipts (reqs : list (IO * Request)) : list PendingRecord :=
  match reqs with
  | [] => []
  | (_, Receive now fhirData) :: rest => record_of now fhirData :: receipts rest
  | (_, ProcessPending) :: rest => receipts rest
  end.

(** The requests of a run that came after its last commit. *)
Definition since_last_commit (reqs : list (IO * Request)) : list (IO * Request) :=
  fold_left
    (fun later req =>
       match snd req with
       | ProcessPending => []
       | Receive _ _ => (later ++ [req])%list
       end)
    reqs [].

(** *** The middleware in front of the handlers *)

(** What the client of [/fhir/patient] gets: the 400 of [express.json()],
    or the answer of the handler. *)
Inductive Answer :=
| BadRequest
| Handled (reply : Reply).

(** [app.use(express.json())] followed by the handler of [/fhir/patient],
    for a request whose body is the JSON text of [body]. The parser runs
    in its default strict mode: it accepts an object or an array; to the
    text of [null], a boolean, a number or a string it answers 400, and
    the handler is not called. *)
Definition receive_json (io : IO) (now : string) (body : JSValue) (st : Store)
    : Store * Answer :=
  match body with
  | JObj _ | JArr _ =>
      let served := post_fhir_patient io now body st in
      (fst served, Handled (snd served))
  | _ => (st, BadRequest)
  end.

(** *** Requests that overlap

    A handler is an [async] function: it runs up to its next [await] of a
    file operation, and the server takes other requests meanwhile. A task
    is a request in progress, stopped at one of its [await]s with the
    local variables it holds there. *)
Inductive Task :=
| ReceiptStarted (pendingRecord : PendingRecord)
| ReceiptLoaded (pendingRecord : PendingRecord)
    (pendingQueue : list PendingRecord)
| CommitStarted
| CommitPendingLoaded (pendingPatients : list PendingRecord)
| CommitLoaded (pendingPatients receivedPatients : list PendingRecord)
| CommitSaved (pendingPatients : list PendingRecord)
| Answered (reply : Reply).

(** The synchronous start of a handler, up to its first [await]:
    [/fhir/patient] extracts the details and stamps the record before it
    loads the queue. *)
Definition start (req : Request) : Task :=
  match req with
  | Receive now fhirData => ReceiptStarted (record_of now fhirData)
  | ProcessPending => CommitStarted
  end.

(** A task goes on after the file operation it awaits, which went through
    or not ([ok]), up to its next [await] or to its answer. *)
Definition advance (ok : bool) (task : Task) (st : Store) : Task * Store :=
  match task with
  | ReceiptStarted pendingRecord =>
      let pendingQueue := loadJsonFile (pending_queue st) ok in
      (ReceiptLoaded pendingRecord (pendingQueue ++ [pendingRecord])%list, st)
  | ReceiptLoaded pendingRecord pendingQueue =>
      let saved := saveJsonFile (pending_queue st) pendingQueue ok in
      (Answered (receipt_reply (details pendingRecord)),
       {| pending_queue := fst saved;
          received_patients := received_patients st |})
  | CommitStarted =>
      (CommitPendingLoaded (loadJsonFile (pending_queue st) ok), st)
  | CommitPendingLoaded pendingPatients =>
      let receivedPatients := loadJsonFile (received_patients st) ok in
      (CommitLoaded pendingPatients (receivedPatients ++ pendingPatients)%list,
       st)
  | CommitLoaded pendingPatients receivedPatients =>
      let saved := saveJsonFile (received_patients st) receivedPatients ok in
      (CommitSaved pendingPatients,
       {| pending_queue := pending_queue st;
          received_patients := fst saved |})
  | CommitSaved pendingPatients =>
      let saved := saveJsonFile (pending_queue st) [] ok in
      (Answered
         (ProcessAck true
            (count_to_string (List.length pendingPatients)
             ++ " records have been processed")),
       {| pending_queue := fst saved;
          received_patients := received_patients st |})
  | Answered reply => (Answered reply, st)
  end.

(** The server: the requests taken so far, in the order of their arrival,
    and the two files. *)
Record System := {
  tasks : list Task;
  files : Store
}.

(** What happens at the server: a request arrives, or the file operation
    that the [i]-th request awaits completes. *)
Inductive Event :=
| Arrive (req : Request)
| Resume (i : nat) (ok : bool).

Fixpoint set_task (i : nat) (task : Task) (ts : list Task) : list Task :=
  match ts, i with
  | [], _ => []
  | _ :: rest, O => task :: rest
  | t :: rest, S i' => t :: set_task i' task rest
  end.

Definition react (sys : System) (e : Event) : System :=
  match e with
  | Arrive req => {| tasks := tasks sys ++ [start req]; files := files sys |}
  | Resume i ok =>
      match nth_error (tasks sys) i with
      | Some task =>
          let next := advance ok task (files sys) in
          {| tasks := set_task i (fst next) (tasks sys); files := snd next |}
      | None => sys
      end
  end.

Definition execute (sys : System) (events : list Event) : System :=
  fold_left react events sys.

(** The server with no request in progress. *)
Definition idle (st : Store) : System := {| tasks := []; files := st |}.

(** The events of one request that no other request overlaps: it arrives
    as the [i]-th request and its file operations complete, with the
    outcomes [fst req], before anything else happens. *)
Definition alone (i : nat) (req : IO * Request) : list Event :=
  match snd req with
  | Receive _ _ =>
      [Arrive (snd req);
       Resume i (load_pending_ok (fst req));
       Resume i (save_pending_ok (fst req))]
  | ProcessPending =>
      [Arrive (snd req);
       Resume i (load_pending_ok (fst req));
       Resume i (load_received_ok (fst req));
       Resume i (save_received_ok (fst req));
       Resume i (save_pending_ok (fst req))]
  end.

(** Requests served one at a time: each one is answered before the next
    arrives. *)
Fixpoint one_at_a_time_from (i : nat) (reqs : list (IO * Request))
    : list Event :=
  match reqs with
  | [] => []
  | req :: rest => (alone i req ++ one_at_a_time_from (S i) rest)%list
  end.

Definition one_at_a_time (reqs : list (IO * Request)) : list Event :=
  one_at_a_time_from 0 reqs.

(** The answer of the handler to a request served alone. *)
Definition reply_to (st : Store) (req : IO * Request) : Reply :=
  match snd req with
  | Receive now fhirData => snd (post_fhir_patient (fst req) now fhirData st)
  | ProcessPending => snd (post_process_pending (fst req) st)
  end.

End Runs.

End HospitalRuns.

(** ** The front end of the hospital (app.js) *)

Module HospitalApp.

Import Hospital.


Section App.

Context {N : JSNumber}.


End App.

End HospitalApp.

(** ** The clinic's server (web4clinics/server.js) *)

Module Clinic.

Import Hospital.

(** The white space that [parseInt] skips, among the characters of the
    model: tab, line feed, vertical tab, form feed, carriage return and
    space. *)
Definition is_white_space (c : ascii) : bool :=
  let n := nat_of_ascii c in
  ((9 <=? n)%nat && (n <=? 13)%nat) || (n =? 32)%nat.

Fixpoint trim_start (s : string) : string :=
  match s with
  | EmptyString => EmptyString
  | String c s' => if is_white_space c then trim_start s' else s
  end.

Definition digit_value (c : ascii) : option nat :=
  let n := nat_of_ascii c in
  if (48 <=? n)%nat && (n <=? 57)%nat then Some (n - 48) else None.

(** A string of the digits [0] to [9] only. *)
Fixpoint all_digits (s : string) : bool :=
  match s with
  | EmptyString => true
  | String c s' =>
      match digit_value c with
      | Some _ => all_digits s'
      | None => false
      end
  end.

(** The value of the longest prefix of decimal digits; [acc] is the value
    of the digits read so far, [None] before the first digit. *)
Fixpoint parse_digits (acc : option nat) (s : string) : option nat :=
  match s with
  | EmptyString => acc
  | String c s' =>
      match digit_value c with
      | Some d =>
          parse_digits
            (Some (10 * match acc with Some a => a | None => 0 end + d)) s'
      | None => acc
      end
  end.

(** [parseInt(s, 10)]: [None] is [NaN]. The integer is exact, as
    JavaScript's is for fewer than sixteen digits. *)
Definition parseInt (s : string) : option Z :=
  match trim_start s with
  | String "-" digits =>
      option_map (fun n => (- Z.of_nat n)%Z) (parse_digits None digits)
  | String "+" digits => option_map Z.of_nat (parse_digits None digits)
  | digits => option_map Z.of_nat (parse_digits None digits)
  end.

(** [s.replace('C', '')]: the first [C] is removed. *)
Fixpoint replace_C (s : string) : string :=
  match s with
  | EmptyString => EmptyString
  | String c s' => if Ascii.eqb c "C" then s' else String c (replace_C s')
  end.

(** [s.padStart(3, '0')]. *)
Definition padStart3 (s : string) : string :=
  match String.length s with
  | 0 => "000" ++ s
  | 1 => "00" ++ s
  | 2 => "0" ++ s
  | _ => s
  end.

(** [`C${String(lastId + 1).padStart(3, '0')}`]. *)
Definition new_id (lastId : nat) : string :=
  "C" ++ padStart3 (count_to_string (lastId + 1)).

(** Whether each operation on one JSON file goes through: reading it,
    creating it when [loadJsonFile] finds that it does not exist, and
    writing it. *)
Record FileIO := {
  read_ok : bool;
  create_ok : bool;
  save_ok : bool
}.

Definition file_ok : FileIO :=
  {| read_ok := true; create_ok := true; save_ok := true |}.

Section Server.

Context {N : JSNumber}.

(** [===] on numbers, which the model takes from the language. *)
Variable number_eq : number -> number -> bool.

Notation "x <- c ;; k" := (andThen c (fun x => k))
  (at level 61, c at next level, right associativity).

(** A JSON file of the clinic: [None] when the file does not exist,
    otherwise the array the server wrote last. *)
Definition File := option (list JSValue).

(** [saveJsonFile(filePath, data)]. *)
Definition saveJsonFile (file : File) (data : list JSValue) (ok : bool)
    : File * bool :=
  if ok then (Some data, true) else (file, false).

(** [loadJsonFile(filePath, defaultValue)]: a missing file is created
    with the default value, which is returned; any other failure returns
    the default value and leaves the file alone. *)
Definition loadJsonFile (file : File) (io : FileIO)
    (defaultValue : list JSValue) : File * list JSValue :=
  match file with
  | None => (fst (saveJsonFile file defaultValue (create_ok io)), defaultValue)
  | Some data => if read_ok io then (file, data) else (file, defaultValue)
  end.

(** [formatDateOfBirth(dob)]. *)
Definition formatDateOfBirth (dob : JSValue) : JSValue :=
  match dob with
  | JStr s =>
      if (String.length s =? 8)%nat
      then JStr (str_slice 0 4 s ++ "-" ++ str_slice 4 6 s ++ "-"
                 ++ str_slice 6 8 s)
      else dob
  | _ => dob
  end.

(** [v.replace('C', '')]: only a string has the method. *)
Definition call_replace_C (v : JSValue) : Completion string :=
  match v with
  | JStr s => Normal (replace_C s)
  | JUndefined | JNull =>
      Throw "TypeError: Cannot read properties of null or undefined (reading 'replace')"
  | _ => Throw "TypeError: replace is not a function"
  end.

(** The loop of [POST /api/patients] over the stored patients. *)
Fixpoint scan_ids (lastId : nat) (patients : list JSValue) : Completion nat :=
  match patients with
  | [] => Normal lastId
  | patient :: rest =>
      patientId <- get patient "patientId" ;;
      digits <- call_replace_C patientId ;;
      match parseInt digits with
      | Some idNum =>
          if (Z.of_nat lastId <? idNum)%Z then scan_ids (Z.to_nat idNum) rest
          else scan_ids lastId rest
      | None => scan_ids lastId rest
      end
  end.

(** The properties that [JSON.stringify] writes: those that are not
    [undefined]. *)
Definition defined (fields : list (string * JSValue))
    : list (string * JSValue) :=
  filter (fun kv => match snd kv with JUndefined => false | _ => true end)
         fields.

(** The object literal [newPatient], as it is written to the file and to
    the answer. *)
Definition new_patient (newId : string) (body : JSValue) : Completion JSValue :=
  firstName <- get body "firstName" ;;
  lastName <- get body "lastName" ;;
  dateOfBirth <- get body "dateOfBirth" ;;
  gender <- get body "gender" ;;
  gender' <- call_toLowerCase gender ;;
  address <- get body "address" ;;
  phoneNumber <- get body "phoneNumber" ;;
  insuranceNumber <- get body "insuranceNumber" ;;
  Normal (JObj (defined
    [("patientId", JStr newId);
     ("firstName", firstName);
     ("lastName", lastName);
     ("dateOfBirth", dateOfBirth);
     ("gender", JStr gender');
     ("address", address);
     ("phoneNumber", phoneNumber);
     ("insuranceNumber", insuranceNumber);
     ("sent_to_hospital", JBool false)])).

(** What a handler of the clinic sends back: 201 with the new patient,
    200 [{success: true, message, sentRecord}], or a status with
    [{error}]. *)
Inductive Reply :=
| Created (patient : JSValue)
| Sent (message : string) (sentRecord : JSValue)
| Refused (status : nat) (error : string).

(** [POST /api/patients] on [patients.json]. *)
Definition post_patients (io : FileIO) (body : JSValue) (file : File)
    : File * Reply :=
  let loaded := loadJsonFile file io [] in
  let patients := snd loaded in
  match (lastId <- scan_ids 0 patients ;; new_patient (new_id lastId) body) with
  | Throw _ => (fst loaded, Refused 500 "Failed to add new patient")
  | Normal newPatient =>
      let saved :=
        saveJsonFile (fst loaded) (patients ++ [newPatient])%list (save_ok io) in
      if snd saved then (fst saved, Created newPatient)
      else (fst saved, Refused 500 "Failed to save new patient")
  end.

(** [a === b] on values of two different parses: two objects or two
    arrays are never the same object. *)
Definition strict_equal (a b : JSValue) : bool :=
  match a, b with
  | JUndefined, JUndefined => true
  | JNull, JNull => true
  | JBool x, JBool y => Bool.eqb x y
  | JNum x, JNum y => number_eq x y
  | JStr x, JStr y => String.eqb x y
  | _, _ => false
  end.

(** [items.find(x => x.key === wanted)]: the items before the first
    match, the match, and the items after it. *)
Fixpoint find_by (key : string) (wanted : JSValue) (items : list JSValue)
    : Completion (option (list JSValue * JSValue * list JSValue)) :=
  match items with
  | [] => Normal None
  | x :: rest =>
      v <- get x key ;;
      if strict_equal v wanted then Normal (Some ([], x, rest))
      else
        found <- find_by key wanted rest ;;
        Normal (match found with
                | Some (before, y, after) => Some (x :: before, y, after)
                | None => None
                end)
  end.

(** [o.k = v] on an object. *)
Fixpoint set_field (k : string) (v : JSValue) (fields : list (string * JSValue))
    : list (string * JSValue) :=
  match fields with
  | [] => [(k, v)]
  | (k', x) :: rest =>
      if String.eqb k k' then (k, v) :: rest
      else (k', x) :: set_field k v rest
  end.

(** [patient.sent_to_hospital = true]. *)
Definition mark_sent (patient : JSValue) : JSValue :=
  match patient with
  | JObj fields => JObj (set_field "sent_to_hospital" (JBool true) fields)
  | _ => patient
  end.

(** The four JSON files that [/api/send-record] touches. *)
Record Store := {
  patients_file : File;
  sent_records_file : File;
  registry_file : File;
  facilities_file : File
}.

Record SendIO := {
  patients_io : FileIO;
  sent_records_io : FileIO;
  registry_io : FileIO;
  facilities_io : FileIO
}.

Definition send_ok : SendIO :=
  {| patients_io := file_ok; sent_records_io := file_ok;
     registry_io := file_ok; facilities_io := file_ok |}.

(** The answer that the handler makes up when [axios.post] throws. *)
Definition simulated_response : JSValue :=
  JObj [("status", JStr "success");
        ("message", JStr "Record translated and sent successfully")].

(** The body posted to the interoperability service. *)
Definition payload_for (targetFacilityId preferred_format patient : JSValue)
    : JSValue :=
  JObj [("metadata",
         JObj [("source_facility_id", JStr "sunshine_clinic");
               ("target_facility_id", targetFacilityId);
               ("source_format", JStr "hl7_v2_json");
               ("target_format", or_else preferred_format (JStr "fhir"))]);
        ("data", patient)].

Definition interop_failure : Reply :=
  Refused 500 "Failed to send record to interoperability service".

(** The inner [try] block of [/api/send-record], after the patient and
    the facility have been found. [api] is the body of the answer of
    [axios.post], [None] when the call throws (no connection, timeout,
    or a status that is not 2xx). *)
Definition deliver (io : SendIO) (api : option JSValue) (now : string)
    (targetFacilityId : JSValue)
    (before : list JSValue) (patient : JSValue) (after : list JSValue)
    (facility : JSValue) (st : Store) : Store * Reply :=
  let responseData :=
    match api with
    | Some data => data
    | None => simulated_response
    end in
  match get responseData "status" with
  | Throw _ => (st, interop_failure)
  | Normal status =>
      if strict_equal status (JStr "success") then
        let patient' := mark_sent patient in
        let patients := (before ++ patient' :: after)%list in
        let saved_patients :=
          saveJsonFile (patients_file st) patients (save_ok (patients_io io)) in
        let loaded_sent :=
          loadJsonFile (sent_records_file st) (sent_records_io io) [] in
        let st1 :=
          {| patients_file := fst saved_patients;
             sent_records_file := fst loaded_sent;
             registry_file := registry_file st;
             facilities_file := facilities_file st |} in
        match (patientId <- get patient' "patientId" ;;
               firstName <- get patient' "firstName" ;;
               first <- to_string firstName ;;
               lastName <- get patient' "lastName" ;;
               last <- to_string lastName ;;
               Normal (patientId, first ++ " " ++ last)) with
        | Throw _ => (st1, interop_failure)
        | Normal (patientId, patientName) =>
            let sentRecord :=
              JObj (defined
                [("patientId", patientId);
                 ("patientName", JStr patientName);
                 ("sent_to", targetFacilityId);
                 ("sent_timestamp", JStr now);
                 ("status", JStr "sent")]) in
            let saved_sent :=
              saveJsonFile (fst loaded_sent)
                (snd loaded_sent ++ [sentRecord])%list
                (save_ok (sent_records_io io)) in
            let st2 :=
              {| patients_file := fst saved_patients;
                 sent_records_file := fst saved_sent;
                 registry_file := registry_file st;
                 facilities_file := facilities_file st |} in
            match (facility_name <- get facility "facility_name" ;;
                   to_string facility_name) with
            | Throw _ => (st2, interop_failure)
            | Normal name =>
                (st2,
                 Sent ("Patient record for " ++ patientName
                       ++ " successfully sent to " ++ name)
                      sentRecord)
            end
        end
      else
        match (error_message <- get responseData "error_message" ;;
               to_string (or_else error_message (JStr "Unknown error"))) with
        | Throw _ => (st, interop_failure)
        | Normal text =>
            (st, Refused 500 ("Error from Interop Service: " ++ text))
        end
  end.

(** The facilities that [/api/send-record] looks the target up in: those
    of the registry file, or, when there are none, those of the local
    copy. With them, the two files after the loads. *)
Definition load_facilities (io : SendIO) (st : Store)
    : File * File * list JSValue :=
  let loaded_registry := loadJsonFile (registry_file st) (registry_io io) [] in
  match snd loaded_registry with
  | [] =>
      let loaded_local :=
        loadJsonFile (facilities_file st) (facilities_io io) [] in
      (fst loaded_registry, fst loaded_local, snd loaded_local)
  | facilities => (fst loaded_registry, facilities_file st, facilities)
  end.

(** [POST /api/send-record]. The second component lists the bodies
    posted to the interoperability service. *)
Definition post_send_record (io : SendIO) (api : option JSValue)
    (now : string) (body : JSValue) (st : Store)
    : Store * list JSValue * Reply :=
  let failed := Refused 500 "Failed to process record sending" in
  match (patientId <- get body "patientId" ;;
         targetFacilityId <- get body "targetFacilityId" ;;
         Normal (patientId, targetFacilityId)) with
  | Throw _ => (st, [], failed)
  | Normal (patientId, targetFacilityId) =>
      if negb (truthy patientId) || negb (truthy targetFacilityId) then
        (st, [], Refused 400 "Patient ID and target facility ID are required")
      else
        let loaded_patients :=
          loadJsonFile (patients_file st) (patients_io io) [] in
        let loaded_facilities := load_facilities io st in
        let st1 :=
          {| patients_file := fst loaded_patients;
             sent_records_file := sent_records_file st;
             registry_file := fst (fst loaded_facilities);
             facilities_file := snd (fst loaded_facilities) |} in
        match (patient <- find_by "patientId" patientId (snd loaded_patients) ;;
               facility <- find_by "facility_id" targetFacilityId
                             (snd loaded_facilities) ;;
               Normal (patient, facility)) with
        | Throw _ => (st1, [], failed)
        | Normal (None, _) => (st1, [], Refused 404 "Patient not found")
        | Normal (Some _, None) =>
            (st1, [], Refused 404 "Target facility not found")
        | Normal (Some (before, patient, after), Some (_, facility, _)) =>
            match get facility "preferred_format" with
            | Throw _ => (st1, [], failed)
            | Normal preferred_format =>
                let payload :=
                  payload_for targetFacilityId preferred_format patient in
                let delivered :=
                  deliver io api now targetFacilityId before patient after
                          facility st1 in
                (fst delivered, [payload], snd delivered)
            end
        end
  end.

End Server.

End Clinic.

(** ** Sample data for concrete runs *)

Module Samples.

Import Hospital.

(** An answer of the AI that holds text and no tool call. *)
Definition ai_plain_answer : Interop.PyVal :=
  Interop.PyDict
    [("choices",
      Interop.PyList
        [Interop.PyDict
           [("message",
             Interop.PyDict [("role", Interop.PyStr "assistant");
                             ("content", Interop.PyStr "Use the tool.")])]])].

(** The payload of the example without its [lastName]. *)
Definition juan_without_last_name : Interop.dict :=
  [("patientId", Interop.PyStr "C123"); ("firstName", Interop.PyStr "Juan");
   ("dateOfBirth", Interop.PyStr "19800101")].

Section Bodies.

Context {N : JSNumber}.

(** A body whose identifier value is [true] instead of a string. *)
Definition odd_fhir : JSValue :=
  JObj [("resourceType", JStr "Patient");
        ("identifier", JArr [JObj [("value", JBool true)]]);
        ("name", JArr [JObj [("family", JStr "Santos");
                             ("given", JArr [JStr "Maria"])]]);
        ("gender", JBool true)].

(** A body whose identifier value is an object with a property
    [toString] of its own. *)
Definition unprintable_fhir : JSValue :=
  JObj [("resourceType", JStr "Patient");
        ("identifier", JArr [JObj [("value", JObj [("toString", JBool true)])]]);
        ("name", JArr [JObj [("family", JStr "Santos");
                             ("given", JArr [JStr "Maria"])]])].

Definition odd_fhir_received : list (IO * Request) :=
  [(io_ok, Receive "2025-06-01T09:00:00.000Z" odd_fhir)].

Definition odd_committed : list (IO * Request) :=
  [(io_ok, Receive "2025-06-01T09:00:00.000Z" odd_fhir);
   (io_ok, ProcessPending)].

(** The pending file cannot be read, everything else goes through. *)
Definition io_pending_unreadable : IO :=
  {| load_pending_ok := false; load_received_ok := true;
     save_received_ok := true; save_pending_ok := true |}.

(** No write goes through. *)
Definition io_no_write : IO :=
  {| load_pending_ok := true; load_received_ok := true;
     save_received_ok := false; save_pending_ok := false |}.

(** The patients of the clinic. *)
Definition juan_patient : JSValue :=
  JObj [("patientId", JStr "C001"); ("firstName", JStr "Juan");
        ("lastName", JStr "Dela Cruz"); ("dateOfBirth", JStr "19800101");
        ("gender", JStr "male"); ("sent_to_hospital", JBool false)].

Definition maria_patient : JSValue :=
  JObj [("patientId", JStr "C002"); ("firstName", JStr "Maria");
        ("lastName", JStr "Santos"); ("dateOfBirth", JStr "19751120");
        ("gender", JStr "female"); ("sent_to_hospital", JBool false)].

Definition clinic_patients : list JSValue := [juan_patient; maria_patient].

Definition memorial_hospital : JSValue :=
  JObj [("facility_id", JStr "memorial_hospital");
        ("facility_name", JStr "Memorial Hospital");
        ("type", JStr "hospital");
        ("preferred_format", JStr "fhir")].

Definition clinic_store : Clinic.Store :=
  {| Clinic.patients_file := Some clinic_patients;
     Clinic.sent_records_file := Some [];
     Clinic.registry_file := Some [memorial_hospital];
     Clinic.facilities_file := None |}.

(** The body of a request to send Maria's record to the hospital. *)
Definition send_maria : JSValue :=
  JObj [("patientId", JStr "C002");
        ("targetFacilityId", JStr "memorial_hospital")].

(** The body of a request for a patient that the clinic does not have. *)
Definition send_stranger : JSValue :=
  JObj [("patientId", JStr "C404");
        ("targetFacilityId", JStr "memorial_hospital")].

(** A new patient as the form of the clinic posts it. *)
Definition ana_body : JSValue :=
  JObj [("firstName", JStr "Ana"); ("lastName", JStr "Reyes");
        ("dateOfBirth", JStr "19900215"); ("gender", JStr "Female");
        ("address", JStr "12 Mabini St"); ("phoneNumber", JStr "555-0101");
        ("insuranceNumber", JStr "INS-7")].

(** The patient that the clinic makes of that body when its file holds
    [clinic_patients]. *)
Definition ana_patient : JSValue :=
  JObj [("patientId", JStr "C003");
        ("firstName", JStr "Ana"); ("lastName", JStr "Reyes");
        ("dateOfBirth", JStr "19900215"); ("gender", JStr "female");
        ("address", JStr "12 Mabini St"); ("phoneNumber", JStr "555-0101");
        ("insuranceNumber", JStr "INS-7");
        ("sent_to_hospital", JBool false)].

(** An answer of the interoperability service that reports an error
    with status 200. *)
Definition interop_error : JSValue :=
  JObj [("status", JStr "error");
        ("error_message", JStr "Validation Failed")].

End Bodies.

(** [===] on the numbers of [no_numbers], of which there are none. *)
Definition no_number_eq (x y : @number no_numbers) : bool :=
  match x with end.

End Samples.

(** * Properties *)

(** ** Strings *)

Lemma append_assoc (a b c : string) : (a ++ b) ++ c = a ++ b ++ c.
Proof.
  induction a as [|x a IH]; simpl; [reflexivity | now rewrite IH].
Qed.

Lemma append_nil_r (a : string) : a ++ "" = a.
Proof.
  induction a as [|x a IH]; simpl; [reflexivity | now rewrite IH].
Qed.

Lemma length_append (a b : string) :
  String.length (a ++ b) = String.length a + String.length b.
Proof.
  induction a as [|x a IH]; simpl; [reflexivity | now rewrite IH].
Qed.

Lemma substring_prefix_app (y r : string) :
  substring 0 (String.length y) (y ++ r) = y.
Proof.
  induction y as [|c y IH]; simpl.
  - destruct r; reflexivity.
  - now rewrite IH.
Qed.

Lemma substring_skip_app (y r : string) (n : nat) :
  substring (String.length y) n (y ++ r) = substring 0 n r.
Proof.
  induction y as [|c y IH]; simpl; [reflexivity | exact IH].
Qed.

Lemma substring_all (s : string) : substring 0 (String.length s) s = s.
Proof.
  induction s as [|c s IH]; simpl; [reflexivity | now rewrite IH].
Qed.

(** The three slices of [convert_hl7_to_fhir] on [YYYY ++ MM ++ DD]. *)
Lemma slices_of_date (y m d : string) :
  String.length y = 4 -> String.length m = 2 -> String.length d = 2 ->
  str_slice 0 4 (y ++ m ++ d) = y /\
  str_slice 4 6 (y ++ m ++ d) = m /\
  str_slice 6 8 (y ++ m ++ d) = d.
Proof.
  intros Hy Hm Hd. unfold str_slice. cbn [Nat.sub].
  repeat split.
  - rewrite <- Hy. apply substring_prefix_app.
  - rewrite <- Hy at 1. rewrite substring_skip_app.
    rewrite <- Hm. apply substring_prefix_app.
  - assert (H6 : 6 = String.length (y ++ m)).
    { rewrite length_append. lia. }
    rewrite <- append_assoc.
    rewrite H6. rewrite substring_skip_app.
    rewrite <- Hd. apply substring_all.
Qed.

Lemma prefix_spec (t s : string) :
  prefix t s = true <-> exists after, s = t ++ after.
Proof.
  revert s. induction t as [|c t IH]; intros s.
  - split; [intros _; now exists s | intros _; destruct s; reflexivity].
  - destruct s as [|c' s]; simpl.
    + split; [discriminate | intros (a & H); discriminate].
    + destruct (ascii_dec c c') as [<- | Hne].
      * rewrite IH. split; intros (a & H); exists a; congruence.
      * split; [discriminate | intros (a & H); congruence].
Qed.

Lemma includes_unfold (s t : string) :
  Hospital.includes s t =
  if prefix t s then true
  else match s with
       | EmptyString => false
       | String _ s' => Hospital.includes s' t
       end.
Proof. destruct s; reflexivity. Qed.

(** [includes] is the substring relation. *)
Lemma includes_spec (s t : string) :
  Hospital.includes s t = true <-> exists before after, s = before ++ t ++ after.
Proof.
  split.
  - induction s as [|c s IH]; rewrite includes_unfold;
      destruct (prefix t _) eqn:Hp.
    + intros _. apply prefix_spec in Hp. destruct Hp as (a & ->).
      now exists "", a.
    + discriminate.
    + intros _. apply prefix_spec in Hp. destruct Hp as (a & Ha).
      exists "", a. exact Ha.
    + intros H. destruct (IH H) as (b & a & ->).
      now exists (String c b), a.
  - intros (b & a & ->).
    induction b as [|c b IH]; rewrite includes_unfold.
    + replace (prefix t ("" ++ t ++ a)) with true; [reflexivity |].
      symmetry. apply prefix_spec. now exists a.
    + destruct (prefix t _); [reflexivity | exact IH].
Qed.

Lemma toLowerCase_append (a b : string) :
  Hospital.toLowerCase (a ++ b) =
  Hospital.toLowerCase a ++ Hospital.toLowerCase b.
Proof.
  induction a as [|c a IH]; simpl; [reflexivity | now rewrite IH].
Qed.

(** ** The translation service *)

Section InteropProperties.

Import Interop.
Context {R : Runtime}.

(** First half of C2, which the code meets: an eight-character
    [dateOfBirth] [YYYYMMDD] gives the [birthDate] [YYYY-MM-DD], and the
    other fields are read with [get]. *)
Lemma convert_date_of_eight (hl7_data : dict) (y m d : string) :
  String.length y = 4 -> String.length m = 2 -> String.length d = 2 ->
  lookup "dateOfBirth" hl7_data = Some (PyStr (y ++ m ++ d)) ->
  convert_hl7_to_fhir hl7_data =
  Ok (PyDict
        [("resourceType", PyStr "Patient");
         ("identifier",
          PyList [PyDict [("system", PyStr "urn:clinic:patient-id");
                          ("value", dict_get hl7_data "patientId")]]);
         ("name",
          PyList [PyDict [("family", dict_get hl7_data "lastName");
                          ("given", PyList [dict_get hl7_data "firstName"])]]);
         ("birthDate", PyStr (y ++ "-" ++ m ++ "-" ++ d))]).
Proof.
  intros Hy Hm Hd Hdob.
  destruct (slices_of_date y m d Hy Hm Hd) as (S1 & S2 & S3).
  unfold convert_hl7_to_fhir, birth_date, dict_item.
  rewrite Hdob. cbn [bind slice]. rewrite S1, S2, S3.
  reflexivity.
Qed.

(** A [dateOfBirth] that is a string is never refused, whatever its
    length: the routine returns the three slices joined by dashes. *)
Lemma convert_accepts_every_string (hl7_data : dict) (s : string) :
  lookup "dateOfBirth" hl7_data = Some (PyStr s) ->
  exists fhir_patient,
    convert_hl7_to_fhir hl7_data = Ok (PyDict fhir_patient) /\
    lookup "birthDate" fhir_patient =
      Some (PyStr (str_slice 0 4 s ++ "-" ++ str_slice 4 6 s ++ "-"
                   ++ str_slice 6 8 s)).
Proof.
  intros Hdob. unfold convert_hl7_to_fhir, birth_date, dict_item.
  rewrite Hdob. cbn [bind slice try_except fmt].
  eexists. split; reflexivity.
Qed.

(** C2, the code at the failing inputs: a four-digit [dateOfBirth] is
    not refused as malformed, the routine returns the [birthDate]
    ["1980--"]; a nine-digit one is cut to its first eight digits. *)
Theorem convert_short_date_not_rejected :
  convert_hl7_to_fhir
    [("patientId", PyStr "C123"); ("firstName", PyStr "Juan");
     ("lastName", PyStr "Dela Cruz"); ("dateOfBirth", PyStr "1980")]
  = Ok (PyDict
          [("resourceType", PyStr "Patient");
           ("identifier",
            PyList [PyDict [("system", PyStr "urn:clinic:patient-id");
                            ("value", PyStr "C123")]]);
           ("name",
            PyList [PyDict [("family", PyStr "Dela Cruz");
                            ("given", PyList [PyStr "Juan"])]]);
           ("birthDate", PyStr "1980--")])
  /\
  exists fhir_patient,
    convert_hl7_to_fhir [("dateOfBirth", PyStr "198001019")]
      = Ok (PyDict fhir_patient) /\
    lookup "birthDate" fhir_patient = Some (PyStr "1980-01-01").
Proof.
  split; [reflexivity |].
  eexists. split; reflexivity.
Qed.

(** C3 as amended: a missing [dateOfBirth] raises [ValueError] with a
    message that names the field, and nothing is returned; when
    [dateOfBirth] is a string, a missing [patientId], [firstName] or
    [lastName] raises nothing: the routine returns the resource with
    [None] in the place of each missing field. *)
Theorem convert_missing_fields (hl7_data : dict) :
  (lookup "dateOfBirth" hl7_data = None ->
   convert_hl7_to_fhir hl7_data =
   Raise (ValueError "Missing or malformed HL7 data: 'dateOfBirth'"))
  /\
  (forall s, lookup "dateOfBirth" hl7_data = Some (PyStr s) ->
   forall field, lookup field hl7_data = None ->
   dict_get hl7_data field = PyNone /\
   exists birthDate,
     convert_hl7_to_fhir hl7_data =
     Ok (PyDict
           [("resourceType", PyStr "Patient");
            ("identifier",
             PyList [PyDict [("system", PyStr "urn:clinic:patient-id");
                             ("value", dict_get hl7_data "patientId")]]);
            ("name",
             PyList [PyDict [("family", dict_get hl7_data "lastName");
                             ("given",
                              PyList [dict_get hl7_data "firstName"])]]);
            ("birthDate", PyStr birthDate)])).
Proof.
  split.
  - intros Hdob. unfold convert_hl7_to_fhir, birth_date, dict_item.
    rewrite Hdob. reflexivity.
  - intros s Hdob field Hfield. split.
    + unfold dict_get. now rewrite Hfield.
    + unfold convert_hl7_to_fhir, birth_date, dict_item.
      rewrite Hdob. cbn [bind slice try_except fmt].
      eexists. reflexivity.
Qed.

(** [validate_fhir_patient] accepts exactly the resources that the
    library builds, whose type is ["Patient"] and whose first name block
    has a [family] that is not [None]. *)
Lemma validate_accepts_iff (fhir_data : PyVal) :
  validate_fhir_patient fhir_data = Ok true <->
  from_data_error fhir_data = None /\
  (exists d, fhir_data = PyDict d /\
             lookup "resourceType" d = Some (PyStr "Patient")) /\
  (exists n family, name_block fhir_data = Some n /\
                    lookup "family" n = Some family /\ family <> PyNone).
Proof.
  unfold validate_fhir_patient, validate_body, from_data, name_block.
  destruct (from_data_error fhir_data) as [e|].
  { cbn. split; [discriminate | intros (H & _); discriminate]. }
  destruct fhir_data as [| b | z | mt ex | s | l | d];
    try (cbn; split;
         [discriminate | intros (_ & (d' & Hd & _) & _); discriminate]).
  cbn [bind getattr].
  destruct (lookup "resourceType" d) as [rt|] eqn:Hrt; cbn [bind try_except].
  2:{ split; [discriminate | intros (_ & (d' & Hd & Hp) & _)].
      injection Hd as <-. congruence. }
  destruct (eq_str rt "Patient") eqn:Heq; cbn [py_assert bind try_except].
  2:{ split; [discriminate | intros (_ & (d' & Hd & Hp) & _)].
      injection Hd as <-. rewrite Hrt in Hp. injection Hp as ->.
      discriminate. }
  assert (Hrt' : rt = PyStr "Patient").
  { destruct rt; try discriminate. cbn in Heq.
    apply String.eqb_eq in Heq. now subst. }
  subst rt.
  destruct (lookup "name" d) as [names|] eqn:Hnames; cbn [bind try_except].
  2:{ split; [discriminate | intros (_ & _ & (n & f & Hn & _)); discriminate]. }
  destruct names as [| b | z | mt ex | s | l | nd];
    try (cbn; split;
         [discriminate | intros (_ & _ & (n & f & Hn & _)); discriminate]).
  { destruct s; cbn;
      (split; [discriminate | intros (_ & _ & (n & f & Hn & _)); discriminate]). }
  destruct l as [|name0 l].
  { cbn. split; [discriminate | intros (_ & _ & (n & f & Hn & _)); discriminate]. }
  cbn [item0 bind].
  destruct name0 as [| b | z | mt ex | s | l' | n0];
    try (cbn; split;
         [discriminate | intros (_ & _ & (n & f & Hn & _)); discriminate]).
  cbn [getattr].
  destruct (lookup "family" n0) as [family|] eqn:Hfam; cbn [bind try_except].
  2:{ split; [discriminate | intros (_ & _ & (n & f & Hn & Hf & _))].
      injection Hn as <-. congruence. }
  destruct family; cbn;
    (split;
     [ try discriminate; intros _;
       repeat split; eauto;
       eexists _, _; repeat split; eauto; discriminate
     | try reflexivity; intros (_ & _ & (n & f & Hn & Hf & Hne));
       injection Hn as <-; rewrite Hfam in Hf; injection Hf as <-;
       congruence ]).
Qed.

(** C4 as amended: a result whose first name block has no [family], or
    has the [family] [None], is rejected, whatever its other fields are
    (an empty string as [family] is not rejected on its own). *)
Theorem validate_rejects_missing_family (fhir_data : PyVal) :
  (forall n, name_block fhir_data = Some n ->
             lookup "family" n = None \/ lookup "family" n = Some PyNone) ->
  validate_fhir_patient fhir_data = Ok false.
Proof.
  intros Hfam.
  destruct (validate_fhir_patient fhir_data) as [[|]|e] eqn:Hv.
  - apply validate_accepts_iff in Hv.
    destruct Hv as (_ & _ & (n & f & Hn & Hf & Hne)).
    destruct (Hfam n Hn) as [H | H]; rewrite H in Hf;
      [discriminate | injection Hf as <-; congruence].
  - reflexivity.
  - unfold validate_fhir_patient, try_except in Hv.
    destruct (validate_body fhir_data); discriminate.
Qed.

(** C8: the validator returns a verdict on every value and raises
    nothing; when the traversal raises, the verdict is [False]. *)
Theorem validate_total (fhir_data : PyVal) :
  validate_fhir_patient fhir_data =
  Ok (match validate_body fhir_data with
      | Ok verdict => verdict
      | Raise _ => false
      end).
Proof.
  unfold validate_fhir_patient, try_except.
  destruct (validate_body fhir_data); reflexivity.
Qed.

(** No registered tool carries a name that is not registered. *)
Lemma find_tool_unregistered (tool_name : PyVal) :
  (forall t, In t AVAILABLE_TOOLS -> tool_name <> PyStr (fst t)) ->
  hashable tool_name = true ->
  find_tool tool_name = Ok None.
Proof.
  intros Habsent Hhash. destruct tool_name; try reflexivity; try discriminate.
  cbn [find_tool].
  destruct (find (fun t => String.eqb s (fst t)) AVAILABLE_TOOLS)
    as [[name f]|] eqn:Hfind; [| reflexivity].
  apply find_some in Hfind. destruct Hfind as [Hin Heq].
  apply String.eqb_eq in Heq. exfalso.
  apply (Habsent _ Hin). now rewrite Heq.
Qed.

(** C6 as amended. When the AI names a tool that is not a key of
    [AVAILABLE_TOOLS], the endpoint has called no translation tool and
    returns no translated data; when the name is a value that Python
    hashes (a string, a number, a boolean or [None]), the endpoint
    answers 400 "Unknown tool". *)
Theorem unknown_tool_is_refused (ai_response : Exc PyVal)
    (request_data : dict) (tool_name : PyVal) :
  requested_tool ai_response = Ok tool_name ->
  (forall t, In t AVAILABLE_TOOLS -> tool_name <> PyStr (fst t)) ->
  fst (translate_data ai_response request_data) = [] /\
  (forall status translated_data,
     snd (translate_data ai_response request_data)
     <> TranslationResponse status translated_data) /\
  (hashable tool_name = true ->
   translate_data ai_response request_data =
   ([], HTTPException 400 ("Unknown tool requested by AI: " ++ fmt tool_name))).
Proof.
  intros Hreq Habsent. unfold translate_data. rewrite Hreq.
  destruct (hashable tool_name) eqn:Hhash.
  - rewrite (find_tool_unregistered tool_name Habsent Hhash).
    split; [reflexivity |]. split; [discriminate | reflexivity].
  - destruct tool_name; try discriminate;
      (split; [reflexivity |]; split; [discriminate | discriminate]).
Qed.

End InteropProperties.

(** C3 as stated fails: the payload has no [patientId], [firstName] or
    [lastName], and the routine returns a resource with [None] in their
    places instead of raising. *)
Lemma convert_missing_names_returns_none :
  Interop.lookup "patientId" [("dateOfBirth", Interop.PyStr "19800101")] = None /\
  Interop.lookup "firstName" [("dateOfBirth", Interop.PyStr "19800101")] = None /\
  Interop.lookup "lastName" [("dateOfBirth", Interop.PyStr "19800101")] = None /\
  @Interop.convert_hl7_to_fhir Interop.lenient_runtime
    [("dateOfBirth", Interop.PyStr "19800101")]
  = Interop.Ok (Interop.PyDict
      [("resourceType", Interop.PyStr "Patient");
       ("identifier",
        Interop.PyList [Interop.PyDict
          [("system", Interop.PyStr "urn:clinic:patient-id");
           ("value", Interop.PyNone)]]);
       ("name",
        Interop.PyList [Interop.PyDict
          [("family", Interop.PyNone);
           ("given", Interop.PyList [Interop.PyNone])]]);
       ("birthDate", Interop.PyStr "1980-01-01")]).
Proof. repeat split. Qed.

Lemma convert_missing_fields_witness :
  @Interop.convert_hl7_to_fhir Interop.lenient_runtime
    [("patientId", Interop.PyStr "C123")]
  = Interop.Raise
      (Interop.ValueError "Missing or malformed HL7 data: 'dateOfBirth'")
  /\
  Interop.dict_get [("dateOfBirth", Interop.PyStr "19800101")] "lastName"
  = Interop.PyNone.
Proof.
  split.
  - apply (@convert_missing_fields Interop.lenient_runtime
             [("patientId", Interop.PyStr "C123")]).
    reflexivity.
  - apply (proj2 (@convert_missing_fields Interop.lenient_runtime
                    [("dateOfBirth", Interop.PyStr "19800101")])
             "19800101" eq_refl "lastName" eq_refl).
Defined.

(** ** The receiving hospital's server *)

Section HospitalProperties.

Import Hospital HospitalRuns.
Context {N : JSNumber}.

Lemma andThen_Normal {A B} (c : Completion A) (k : A -> Completion B) (b : B) :
  andThen c k = Normal b -> exists a, c = Normal a /\ k a = Normal b.
Proof.
  destruct c as [a|e]; simpl; [eauto | discriminate].
Qed.

(** On records whose identifiers are strings the callback of [filter]
    never throws, and [filter] keeps the matching records in order. *)
Lemma filter_records_text (searchTerm : string) (patients : list PendingRecord) :
  (forall r, In r patients -> exists id, patient_id (details r) = JStr id) ->
  filter_records (matches searchTerm) patients =
  Normal (filter (matches_text searchTerm) patients).
Proof.
  induction patients as [|p rest IH]; intros Hids; [reflexivity |].
  destruct (Hids p (or_introl eq_refl)) as (id & Hid).
  cbn [filter_records filter]. rewrite IH by (intros r Hr; apply Hids; now right).
  unfold matches, matches_text. rewrite Hid. cbn.
  destruct (includes (toLowerCase id) searchTerm); reflexivity.
Qed.

Lemma matches_text_spec (q : string) (r : PendingRecord) :
  matches_text (toLowerCase q) r = true <->
  (exists id, patient_id (details r) = JStr id /\ ci_contains id q) \/
  ((exists id, patient_id (details r) = JStr id) /\
   ci_contains (full_name (details r)) q).
Proof.
  unfold matches_text, ci_contains.
  destruct (patient_id (details r)) as [| | b | n | id | l | f];
    try (split; [discriminate
                | intros [(id' & H & _) | ((id' & H) & _)]; discriminate]).
  rewrite orb_true_iff, !includes_spec. split.
  - intros [H | H]; [left; eauto | right; eauto].
  - intros [(id' & Hid & H) | (_ & H)].
    + injection Hid as <-. now left.
    + now right.
Qed.

(** The extraction composes [full_name] from the given and the family
    name it returns. *)
Lemma full_name_composed (fhirData : JSValue) (d : PatientDetails) :
  extract_body fhirData = Normal d ->
  exists g f, to_string (given_name d) = Normal g /\
              to_string (family_name d) = Normal f /\
              full_name d = g ++ " " ++ f.
Proof.
  unfold extract_body. intros H.
  repeat (apply andThen_Normal in H; destruct H as (? & ? & H)).
  injection H as <-. cbn. eauto.
Qed.

Lemma family_name_found (fhirData : JSValue) (family : string) :
  family_name (extractPatientDetails fhirData) = JStr family ->
  family <> "Error" ->
  includes (toLowerCase (full_name (extractPatientDetails fhirData)))
           (toLowerCase family) = true.
Proof.
  unfold extractPatientDetails.
  destruct (extract_body fhirData) as [d|e] eqn:Hbody.
  - intros Hfam _. destruct (full_name_composed _ _ Hbody) as (g & f & _ & Hf & ->).
    rewrite Hfam in Hf. cbn in Hf. injection Hf as <-.
    apply includes_spec. exists (toLowerCase (g ++ " ")), "".
    rewrite append_nil_r, <- toLowerCase_append, append_assoc. reflexivity.
  - cbn. intros Hfam Hne. congruence.
Qed.

(** C9 as amended. When the committed file is read and every committed
    record has a string as [patient_id]: the empty term gets no record;
    a term that is not empty gets exactly the committed records, in
    their order, whose [patient_id] or [full_name] contains it when case
    is ignored; and the search for ["Dela Cruz"] returns every committed
    record that the extraction gave that family name. *)
Theorem search_returns_matches (io : IO) (st : Store) :
  load_received_ok io = true ->
  (forall r, In r (received_patients st) ->
             exists id, patient_id (details r) = JStr id) ->
  get_search io (JStr "") st = SearchResults []
  /\
  (forall q, q <> "" ->
     get_search io (JStr q) st =
       SearchResults (filter (matches_text (toLowerCase q)) (received_patients st))
     /\
     forall r,
       In r (filter (matches_text (toLowerCase q)) (received_patients st)) <->
       In r (received_patients st) /\
       ((exists id, patient_id (details r) = JStr id /\ ci_contains id q) \/
        ci_contains (full_name (details r)) q))
  /\
  (forall r fhirData,
     In r (received_patients st) ->
     details r = extractPatientDetails fhirData ->
     family_name (details r) = JStr "Dela Cruz" ->
     exists results,
       get_search io (JStr "Dela Cruz") st = SearchResults results /\
       In r results).
Proof.
  intros Hload Hids.
  assert (Hsearch : forall q, q <> "" ->
            get_search io (JStr q) st =
            SearchResults (filter (matches_text (toLowerCase q))
                                  (received_patients st))).
  { intros q Hq. unfold get_search. cbn [truthy].
    destruct (String.eqb_spec q "") as [-> | _]; [congruence |].
    cbn [negb call_toLowerCase andThen]. rewrite Hload. cbn [loadJsonFile].
    now rewrite filter_records_text. }
  split; [reflexivity |]. split.
  - intros q Hq. split; [now apply Hsearch |].
    intros r. rewrite filter_In, matches_text_spec. split.
    + intros (Hin & [H | (_ & H)]); auto.
    + intros (Hin & [H | H]); split; auto.
  - intros r fhirData Hin Hdetails Hfam.
    eexists. split; [apply Hsearch; discriminate |].
    apply filter_In. split; [exact Hin |].
    destruct (Hids r Hin) as (id & Hid).
    unfold matches_text. rewrite Hid.
    apply orb_true_iff. right.
    rewrite Hdetails in *.
    apply (family_name_found fhirData "Dela Cruz" Hfam). discriminate.
Qed.

(** The record of the [catch] block prints, and so does ["Unknown"]. *)
Lemma missing_identifier_prints (fhirData : JSValue) :
  get fhirData "identifier" = Normal JUndefined ->
  patient_id (extractPatientDetails fhirData) = Unknown \/
  patient_id (extractPatientDetails fhirData) = JStr "Error".
Proof.
  intros E. unfold extractPatientDetails.
  destruct (extract_body fhirData) as [d|e] eqn:H; [left | now right].
  unfold extract_body in H. rewrite E in H.
  cbn [andThen non_empty truthy] in H.
  repeat (apply andThen_Normal in H; destruct H as (? & ? & H)).
  now injection H as <-.
Qed.

(** C10 as amended. The extraction returns a record for every value and
    keeps the value in [original_fhir]. When its [try] block throws, as on
    [null] and [undefined], the record is the one with the ["Error"]
    fields; otherwise a field whose source is missing holds ["Unknown"].
    The handler acknowledges the receipt of every body whose extracted
    [patient_id] can be printed: among them every body without
    [identifier] and every body on which the extraction threw.
    [express.json()] hands the handler objects and arrays, and refuses
    every other JSON text with 400. *)
Theorem extractPatientDetails_total (fhirData : JSValue) :
  original_fhir (extractPatientDetails fhirData) = fhirData
  /\
  (forall error, extract_body fhirData = Throw error ->
     extractPatientDetails fhirData = error_details fhirData)
  /\
  (fhirData = JNull \/ fhirData = JUndefined ->
     extractPatientDetails fhirData = error_details fhirData)
  /\
  (forall d, extract_body fhirData = Normal d ->
     extractPatientDetails fhirData = d /\
     (get fhirData "identifier" = Normal JUndefined -> patient_id d = Unknown) /\
     (forall id0 rest,
        get fhirData "identifier" = Normal (JArr (id0 :: rest)) ->
        get id0 "value" = Normal JUndefined -> patient_id d = Unknown) /\
     (get fhirData "name" = Normal JUndefined ->
        family_name d = Unknown /\ given_name d = Unknown /\
        full_name d = "Unknown Unknown") /\
     (forall name0 rest,
        get fhirData "name" = Normal (JArr (name0 :: rest)) ->
        (get name0 "family" = Normal JUndefined -> family_name d = Unknown) /\
        (get name0 "given" = Normal JUndefined -> given_name d = Unknown)) /\
     (get fhirData "birthDate" = Normal JUndefined -> birth_date d = Unknown) /\
     (get fhirData "gender" = Normal JUndefined -> gender d = Unknown))
  /\
  (forall io now st,
     (forall text,
        to_string (patient_id (extractPatientDetails fhirData)) = Normal text ->
        snd (post_fhir_patient io now fhirData st) =
        ReceiptAck "success"
          ("Patient data for " ++ full_name (extractPatientDetails fhirData)
           ++ " received and pending review.")) /\
     (get fhirData "identifier" = Normal JUndefined ->
        snd (post_fhir_patient io now fhirData st) =
        ReceiptAck "success"
          ("Patient data for " ++ full_name (extractPatientDetails fhirData)
           ++ " received and pending review.")) /\
     (forall error, extract_body fhirData = Throw error ->
        snd (post_fhir_patient io now fhirData st) =
        ReceiptAck "success"
          "Patient data for Error processing patient data received and pending review."))
  /\
  (forall io now st,
     ((exists fields, fhirData = JObj fields) \/ (exists l, fhirData = JArr l) ->
      receive_json io now fhirData st =
      (fst (post_fhir_patient io now fhirData st),
       Handled (snd (post_fhir_patient io now fhirData st)))) /\
     ((forall fields, fhirData <> JObj fields) ->
      (forall l, fhirData <> JArr l) ->
      receive_json io now fhirData st = (st, BadRequest))).
Proof.
  split; [| split; [| split; [| split; [| split]]]].
  - unfold extractPatientDetails.
    destruct (extract_body fhirData) as [d|e] eqn:H; [| reflexivity].
    unfold extract_body in H.
    repeat (apply andThen_Normal in H; destruct H as (? & ? & H)).
    now injection H as <-.
  - intros e H. unfold extractPatientDetails. now rewrite H.
  - intros [-> | ->]; reflexivity.
  - intros d H. split; [unfold extractPatientDetails; now rewrite H |].
    unfold extract_body in H.
    apply andThen_Normal in H; destruct H as (identifier & Hid & H).
    apply andThen_Normal in H; destruct H as (has_id & Hhas & H).
    apply andThen_Normal in H; destruct H as (patientId & Hpid & H).
    apply andThen_Normal in H; destruct H as (name & Hname & H).
    apply andThen_Normal in H; destruct H as (has_name & Hhasn & H).
    apply andThen_Normal in H; destruct H as (nameData & Hdata & H).
    apply andThen_Normal in H; destruct H as (family & Hfam & H).
    apply andThen_Normal in H; destruct H as (given & Hgiven & H).
    apply andThen_Normal in H; destruct H as (given0 & Hgiven0 & H).
    apply andThen_Normal in H; destruct H as (birthDate & Hbirth & H).
    apply andThen_Normal in H; destruct H as (gender0 & Hgender & H).
    apply andThen_Normal in H; destruct H as (g & Hg & H).
    apply andThen_Normal in H; destruct H as (f & Hf & H).
    injection H as <-. cbn [patient_id family_name given_name full_name
                            birth_date gender].
    split; [| split; [| split; [| split; [| split]]]].
    + intros E. rewrite E in Hid, Hpid. injection Hid as <-.
      cbn in Hhas. injection Hhas as <-. now injection Hpid as <-.
    + intros id0 rest E Evalue. rewrite E in Hid, Hpid. injection Hid as <-.
      cbn in Hhas. injection Hhas as <-.
      cbn in Hpid. rewrite Evalue in Hpid. cbn in Hpid.
      now injection Hpid as <-.
    + intros E. rewrite E in Hname, Hdata. injection Hname as <-.
      cbn in Hhasn. injection Hhasn as <-. injection Hdata as <-.
      cbn in Hfam. injection Hfam as <-.
      cbn in Hgiven. injection Hgiven as <-.
      cbn in Hgiven0. injection Hgiven0 as <-.
      cbn in Hg, Hf. injection Hg as <-. injection Hf as <-.
      repeat split.
    + intros name0 rest E. rewrite E in Hname, Hdata. injection Hname as <-.
      cbn in Hhasn. injection Hhasn as <-.
      cbn in Hdata. injection Hdata as <-. split.
      * intros Efam. rewrite Efam in Hfam. now injection Hfam as <-.
      * intros Egiven. rewrite Egiven in Hgiven. injection Hgiven as <-.
        cbn in Hgiven0. now injection Hgiven0 as <-.
    + intros E. rewrite E in Hbirth. now injection Hbirth as <-.
    + intros E. rewrite E in Hgender. now injection Hgender as <-.
  - intros io now st. split; [| split].
    + intros text Htext. cbn [post_fhir_patient snd]. unfold receipt_reply.
      now rewrite Htext.
    + intros E. cbn [post_fhir_patient snd]. unfold receipt_reply.
      destruct (missing_identifier_prints fhirData E) as [-> | ->];
        reflexivity.
    + intros error H. cbn [post_fhir_patient snd].
      unfold receipt_reply, extractPatientDetails. rewrite H. reflexivity.
  - intros io now st. split.
    + intros [(fields & ->) | (l & ->)]; reflexivity.
    + intros Hobj Harr.
      destruct fhirData as [| | b | n | t | l | fields]; try reflexivity.
      * now contradiction (Harr l).
      * now contradiction (Hobj fields).
Qed.

(** C5, the code when the write fails: [saveJsonFile] returns [false],
    the handler does not look at it, and for every body whose extracted
    [patient_id] can be printed in the log line the receipt is
    acknowledged with ["success"] although the pending file is as it
    was. *)
Theorem receipt_acknowledged_when_save_fails (io : IO) (now : string)
    (fhirData : JSValue) (st : Store) (text : string) :
  save_pending_ok io = false ->
  to_string (patient_id (extractPatientDetails fhirData)) = Normal text ->
  post_fhir_patient io now fhirData st =
  (st, ReceiptAck "success"
         ("Patient data for " ++ full_name (extractPatientDetails fhirData)
          ++ " received and pending review.")).
Proof.
  intros Hsave Htext. unfold post_fhir_patient, saveJsonFile, receipt_reply.
  rewrite Hsave, Htext. destruct st. reflexivity.
Qed.

(** When the files are read and written, a receipt appends its record and
    a commit moves the pending records behind the committed ones. *)
Lemma receive_appends (now : string) (fhirData : JSValue) (st : Store) :
  handle st (io_ok, Receive now fhirData) =
  {| pending_queue :=
       pending_queue st ++
       [{| details := extractPatientDetails fhirData;
           received_timestamp := now;
           status := "pending" |}];
     received_patients := received_patients st |}.
Proof. reflexivity. Qed.

Lemma process_moves (st : Store) :
  handle st (io_ok, ProcessPending) =
  {| pending_queue := [];
     received_patients := received_patients st ++ pending_queue st |}.
Proof. reflexivity. Qed.

Lemma NoDup_app_disjoint {A} (l1 l2 : list A) (x : A) :
  NoDup (l1 ++ l2) -> In x l1 -> In x l2 -> False.
Proof.
  induction l1 as [|a l1 IH]; simpl; intros Hnd H1 H2; [exact H1 |].
  inversion Hnd as [|? ? Hnotin Hnd']; subst.
  destruct H1 as [-> | H1].
  - apply Hnotin. apply in_or_app. now right.
  - now apply IH.
Qed.

(** The invariant of a run without faults: no timestamp occurs twice
    among the committed records, the pending records and the receipts
    still to come. *)
Lemma stamps_stay_distinct (reqs : list (IO * Request)) (st : Store) :
  fault_free reqs ->
  NoDup (stamps (received_patients st) ++ stamps (pending_queue st)
         ++ receipt_stamps reqs) ->
  NoDup (stamps (received_patients (run st reqs))
         ++ stamps (pending_queue (run st reqs))).
Proof.
  revert st. induction reqs as [|[io req] reqs IH]; intros st Hff Hnd.
  - cbn in *. now rewrite app_nil_r in Hnd.
  - inversion Hff as [|? ? Hio Hff']; subst. cbn in Hio. subst io.
    unfold run. cbn [fold_left]. apply IH; [exact Hff' |].
    destruct req as [now fhirData|].
    + rewrite receive_appends.
      cbn [pending_queue received_patients receipt_stamps] in *.
      unfold stamps in *. rewrite map_app. cbn [map received_timestamp].
      rewrite <- app_assoc. exact Hnd.
    + rewrite process_moves.
      cbn [pending_queue received_patients receipt_stamps] in *.
      unfold stamps in *. rewrite map_app. cbn [map app].
      rewrite <- app_assoc. exact Hnd.
Qed.

(** Requests that do not overlap: the steps of a request that is served
    alone compose to its handler. *)
Lemma nth_error_last (ts : list Task) (task : Task) :
  nth_error (ts ++ [task]) (List.length ts) = Some task.
Proof. induction ts as [|t ts IH]; [reflexivity | exact IH]. Qed.

Lemma set_task_last (ts : list Task) (task task' : Task) :
  set_task (List.length ts) task' (ts ++ [task]) = (ts ++ [task'])%list.
Proof.
  induction ts as [|t ts IH]; [reflexivity |].
  cbn [List.length app set_task]. now rewrite IH.
Qed.

Lemma resume_last (ts : list Task) (task : Task) (st : Store) (ok : bool) :
  react {| tasks := ts ++ [task]; files := st |} (Resume (List.length ts) ok) =
  {| tasks := ts ++ [fst (advance ok task st)];
     files := snd (advance ok task st) |}.
Proof.
  cbn [react tasks files]. rewrite nth_error_last, set_task_last. reflexivity.
Qed.

Lemma alone_is_handle (ts : list Task) (st : Store) (req : IO * Request) :
  execute {| tasks := ts; files := st |} (alone (List.length ts) req) =
  {| tasks := ts ++ [Answered (reply_to st req)]; files := handle st req |}.
Proof.
  assert (Harrive : forall r,
            react {| tasks := ts; files := st |} (Arrive r) =
            {| tasks := ts ++ [start r]; files := st |}) by reflexivity.
  destruct req as [io [now fhirData|]]; unfold alone, execute, handle, reply_to;
    cbn [snd fst fold_left]; rewrite Harrive, !resume_last; reflexivity.
Qed.

Lemma execute_app (sys : System) (first later : list Event) :
  execute sys (first ++ later) = execute (execute sys first) later.
Proof. apply fold_left_app. Qed.

Lemma one_at_a_time_is_run (reqs : list (IO * Request)) (ts : list Task)
    (st : Store) :
  files (execute {| tasks := ts; files := st |}
           (one_at_a_time_from (List.length ts) reqs)) = run st reqs.
Proof.
  revert ts st. induction reqs as [|req reqs IH]; intros ts st; [reflexivity |].
  cbn [one_at_a_time_from]. rewrite execute_app, alone_is_handle.
  replace (S (List.length ts))
    with (List.length (ts ++ [Answered (reply_to st req)])%list)
    by (rewrite length_app; cbn; lia).
  rewrite IH. reflexivity.
Qed.

Lemma served_one_at_a_time (reqs : list (IO * Request)) (st : Store) :
  files (execute (idle st) (one_at_a_time reqs)) = run st reqs.
Proof. apply (one_at_a_time_is_run reqs [] st). Qed.

(** C1 as amended. When the requests are served one at a time, each one
    answered before the next arrives, from the empty files, every file
    operation goes through and no two receipts carry the same timestamp,
    the pending and the committed records are disjoint after every
    request. A commit that no other request overlaps and whose four file
    operations go through leaves the pending file empty and the committed
    file with the former pending records appended; such a commit whose
    two writes both fail changes neither file. *)
Theorem commit_moves_the_batch :
  (forall reqs,
     fault_free reqs -> NoDup (receipt_stamps reqs) ->
     disjoint (files (execute (idle initial) (one_at_a_time reqs))))
  /\
  (forall st,
     let st' := fst (post_process_pending io_ok st) in
     pending_queue st' = [] /\
     received_patients st' = (received_patients st ++ pending_queue st)%list /\
     (forall r, In r (pending_queue st) -> In r (received_patients st')) /\
     disjoint st')
  /\
  (forall io st,
     save_received_ok io = false -> save_pending_ok io = false ->
     fst (post_process_pending io st) = st).
Proof.
  split; [| split].
  - intros reqs Hff Hnd. rewrite served_one_at_a_time.
    intros r Hpending Hreceived.
    apply (NoDup_app_disjoint
             (stamps (received_patients (run initial reqs)))
             (stamps (pending_queue (run initial reqs)))
             (received_timestamp r)).
    + apply stamps_stay_distinct; [exact Hff | exact Hnd].
    + unfold stamps. now apply in_map.
    + unfold stamps. now apply in_map.
  - intros st. cbn. repeat split.
    + intros r Hr. apply in_or_app. now right.
    + intros r [].
  - intros io st Hr Hp. unfold post_process_pending, saveJsonFile.
    rewrite Hr, Hp. destruct st. reflexivity.
Qed.

(** C7 as amended. Two commits in succession, with no other request
    between or during them: when the first commit has cleared the pending
    file and the second one reads the committed file, the second commit
    leaves the committed records as they are and reports zero records. *)
Theorem commit_all_idempotent (st : Store) (io1 io2 : IO) :
  save_pending_ok io1 = true ->
  load_received_ok io2 = true ->
  let st1 := fst (post_process_pending io1 st) in
  let st2 := fst (post_process_pending io2 st1) in
  received_patients st2 = received_patients st1 /\
  pending_queue st2 = [] /\
  snd (post_process_pending io2 st1) =
    ProcessAck true "0 records have been processed".
Proof.
  intros Hclear Hread. unfold post_process_pending, saveJsonFile, loadJsonFile.
  rewrite Hclear, Hread. cbn.
  destruct (load_pending_ok io2), (save_received_ok io2), (save_pending_ok io2);
    cbn; rewrite ?app_nil_r; repeat split.
Qed.

End HospitalProperties.

(** ** Concrete runs *)

Section ConcreteInterop.

Import Interop.

(** C4 as stated fails: the first name block has the empty string as
    [family], type and identity block are in order, and the verdict is
    [True]. *)
Lemma validate_accepts_empty_family :
  name_block
    (PyDict [("resourceType", PyStr "Patient");
             ("identifier", PyList [PyDict [("value", PyStr "C123")]]);
             ("name", PyList [PyDict [("family", PyStr "");
                                      ("given", PyList [PyStr "Juan"])]])])
  = Some [("family", PyStr ""); ("given", PyList [PyStr "Juan"])]
  /\
  @validate_fhir_patient lenient_runtime
    (PyDict [("resourceType", PyStr "Patient");
             ("identifier", PyList [PyDict [("value", PyStr "C123")]]);
             ("name", PyList [PyDict [("family", PyStr "");
                                      ("given", PyList [PyStr "Juan"])]])])
  = Ok true.
Proof. split; reflexivity. Qed.

Lemma validate_rejects_missing_family_witness :
  name_block
    (PyDict [("resourceType", PyStr "Patient");
             ("identifier", PyList [PyDict [("value", PyStr "C123")]]);
             ("name", PyList [PyDict [("given", PyList [PyStr "Juan"])]])])
  = Some [("given", PyList [PyStr "Juan"])]
  /\
  @validate_fhir_patient lenient_runtime
    (PyDict [("resourceType", PyStr "Patient");
             ("identifier", PyList [PyDict [("value", PyStr "C123")]]);
             ("name", PyList [PyDict [("given", PyList [PyStr "Juan"])]])])
  = Ok false.
Proof.
  split; [reflexivity |].
  apply (@validate_rejects_missing_family lenient_runtime).
  intros n Hn. cbn in Hn. injection Hn as <-. left. reflexivity.
Defined.

Lemma unknown_tool_is_refused_witness :
  @translate_data lenient_runtime
    (ai_asks_for (PyStr "convert_cda_to_fhir")) juan
  = ([], HTTPException 400
           "Unknown tool requested by AI: convert_cda_to_fhir").
Proof.
  apply (@unknown_tool_is_refused lenient_runtime
           (ai_asks_for (PyStr "convert_cda_to_fhir")) juan
           (PyStr "convert_cda_to_fhir")).
  - reflexivity.
  - intros t [<- | []]. cbn. discriminate.
  - reflexivity.
Defined.

(** C6 as stated fails: the AI answers with a dict where the name of the
    tool belongs. No tool is registered under it, and the endpoint does
    not answer 400 "Unknown tool": the look-up raises a [TypeError] that
    nothing catches. *)
Lemma unhashable_tool_is_not_refused :
  (forall t, In t (@AVAILABLE_TOOLS lenient_runtime) ->
     PyDict [("name", PyStr "convert_cda_to_fhir")] <> PyStr (fst t)) /\
  @translate_data lenient_runtime
    (ai_asks_for (PyDict [("name", PyStr "convert_cda_to_fhir")])) juan
  = ([], Unhandled (TypeError "unhashable type: 'dict'")) /\
  (forall detail,
     snd (@translate_data lenient_runtime
            (ai_asks_for (PyDict [("name", PyStr "convert_cda_to_fhir")])) juan)
     <> HTTPException 400 detail).
Proof.
  split; [intros t _; discriminate |].
  split; [reflexivity | intros detail; discriminate].
Qed.

(** The end-to-end example of the specification goes through: the tool
    is called once and its result passes the validation. *)
Example juan_is_translated :
  @translate_data lenient_runtime
    (ai_asks_for (PyStr "convert_hl7_to_fhir")) juan
  = (["convert_hl7_to_fhir"],
     TranslationResponse "success"
       (PyDict
          [("resourceType", PyStr "Patient");
           ("identifier",
            PyList [PyDict [("system", PyStr "urn:clinic:patient-id");
                            ("value", PyStr "C123")]]);
           ("name",
            PyList [PyDict [("family", PyStr "Dela Cruz");
                            ("given", PyList [PyStr "Juan"])]]);
           ("birthDate", PyStr "1980-01-01")])).
Proof. reflexivity. Qed.

(** A value that is no resource at all makes the traversal raise, and
    the verdict is [False]. *)
Example validate_none :
  @validate_body lenient_runtime PyNone
  = Raise (AttributeError "'NoneType' object has no attribute 'resourceType'")
  /\ @validate_fhir_patient lenient_runtime PyNone = Ok false.
Proof. split; reflexivity. Qed.

(** A [dateOfBirth] that is [None] raises a [TypeError], which the
    [except] clauses of the tool and of the endpoint let through. *)
Example null_date_is_unhandled :
  @translate_data lenient_runtime
    (ai_asks_for (PyStr "convert_hl7_to_fhir"))
    [("patientId", PyStr "C123"); ("dateOfBirth", PyNone)]
  = (["convert_hl7_to_fhir"],
     Unhandled (TypeError "'NoneType' object is not subscriptable")).
Proof. reflexivity. Qed.

End ConcreteInterop.

Section ConcreteHospital.

Import Hospital HospitalRuns Samples.
#[local] Existing Instance no_numbers.

Example juan_details :
  @extractPatientDetails no_numbers juan_fhir =
  {| patient_id := JStr "C123";
     given_name := JStr "Juan";
     family_name := JStr "Dela Cruz";
     full_name := "Juan Dela Cruz";
     birth_date := JStr "1980-01-01";
     gender := Unknown;
     original_fhir := juan_fhir |}.
Proof. reflexivity. Qed.

Lemma extractPatientDetails_total_witness :
  @extractPatientDetails no_numbers JNull = error_details JNull /\
  patient_id (@extractPatientDetails no_numbers (JObj [])) = Unknown /\
  full_name (@extractPatientDetails no_numbers (JObj [])) = "Unknown Unknown" /\
  snd (@post_fhir_patient no_numbers io_ok "2025-06-01T08:00:00.000Z"
         juan_fhir initial)
  = ReceiptAck "success"
      "Patient data for Juan Dela Cruz received and pending review." /\
  snd (@receive_json no_numbers io_ok "2025-06-01T08:00:00.000Z" (JObj [])
         initial)
  = Handled (ReceiptAck "success"
      "Patient data for Unknown Unknown received and pending review.") /\
  @receive_json no_numbers io_ok "2025-06-01T08:00:00.000Z" (JStr "Juan")
    initial
  = (initial, BadRequest).
Proof.
  destruct (@extractPatientDetails_total no_numbers JNull)
    as (_ & _ & Hnull & _).
  destruct (@extractPatientDetails_total no_numbers (JObj []))
    as (_ & _ & _ & Hfields & Hempty & Hparsed).
  destruct (Hfields (@extractPatientDetails no_numbers (JObj [])) eq_refl)
    as (_ & Hid & _ & Hname & _).
  destruct (@extractPatientDetails_total no_numbers juan_fhir)
    as (_ & _ & _ & _ & Hjuan & _).
  destruct (Hjuan io_ok "2025-06-01T08:00:00.000Z" initial) as (Hprints & _).
  destruct (Hempty io_ok "2025-06-01T08:00:00.000Z" initial)
    as (_ & Hmissing & _).
  destruct (Hparsed io_ok "2025-06-01T08:00:00.000Z" initial) as (Hobject & _).
  destruct (@extractPatientDetails_total no_numbers (JStr "Juan"))
    as (_ & _ & _ & _ & _ & Htext).
  destruct (Htext io_ok "2025-06-01T08:00:00.000Z" initial) as (_ & Hrefused).
  split; [apply Hnull; left; reflexivity |].
  split; [apply Hid; reflexivity |].
  split; [apply Hname; reflexivity |].
  split; [apply (Hprints "C123"); reflexivity |].
  split.
  - rewrite Hobject by (left; eexists; reflexivity).
    cbn [snd]. rewrite Hmissing by reflexivity. reflexivity.
  - apply Hrefused; discriminate.
Defined.

(** C10 as stated fails: the extraction returns a record for this body,
    the handler queues it, and then answers 500, because the
    [patient_id] of the record cannot be printed in the log line. The
    JSON text [null] does not reach the handler: [express.json()] answers
    400. *)
Lemma unprintable_id_is_not_acknowledged :
  @extract_body no_numbers unprintable_fhir
  = Normal (extractPatientDetails unprintable_fhir) /\
  patient_id (@extractPatientDetails no_numbers unprintable_fhir)
  = JObj [("toString", JBool true)] /\
  @post_fhir_patient no_numbers io_ok "2025-06-01T10:00:00.000Z"
    unprintable_fhir initial
  = ({| pending_queue := [record_of "2025-06-01T10:00:00.000Z" unprintable_fhir];
        received_patients := [] |},
     ServerError "Failed to process patient data") /\
  @receive_json no_numbers io_ok "2025-06-01T10:00:00.000Z" JNull initial
  = (initial, BadRequest).
Proof. repeat split. Qed.

Lemma receipt_acknowledged_when_save_fails_witness :
  @post_fhir_patient no_numbers io_clear_fails "2025-06-01T08:00:00.000Z"
    juan_fhir initial
  = (initial,
     ReceiptAck "success"
       "Patient data for Juan Dela Cruz received and pending review.").
Proof.
  apply (@receipt_acknowledged_when_save_fails no_numbers io_clear_fails
           "2025-06-01T08:00:00.000Z" juan_fhir initial "C123").
  - reflexivity.
  - reflexivity.
Defined.

(** C1 as stated fails: one record is pending and none is committed; the
    commit writes the committed file and fails to clear the pending file.
    Afterwards the record is in both files: the pending file is not
    empty, the committed file has changed, and the two are not
    disjoint. *)
Lemma commit_duplicates_when_clear_fails :
  let st0 := @run no_numbers initial juan_received in
  let st1 := fst (post_process_pending io_clear_fails st0) in
  disjoint st0 /\
  pending_queue st1 = pending_queue st0 /\
  pending_queue st1 <> [] /\
  received_patients st1 = pending_queue st0 /\
  received_patients st1 <> received_patients st0 /\
  ~ disjoint st1.
Proof.
  cbv zeta. repeat split.
  - intros r _ [].
  - discriminate.
  - discriminate.
  - intros H. apply (H juan_record); left; reflexivity.
Qed.

(** Two receipts of the same body at the same instant, one before and
    one after a commit, are the same record: without distinct timestamps
    the pending and the committed records are not disjoint even when
    every file operation goes through. *)
Example equal_receipts_not_disjoint :
  ~ @disjoint no_numbers
      (run initial
         (juan_committed ++
          [(io_ok, Receive "2025-06-01T08:00:00.000Z" juan_fhir)])).
Proof.
  intros H. apply (H juan_record); left; reflexivity.
Qed.

(** C7 as stated fails: after a commit whose clearing write failed, the
    next commit, with no receipt in between, appends the same record once
    more and reports one record. *)
Lemma second_commit_repeats_after_failed_clear :
  let st1 := fst (@post_process_pending no_numbers io_clear_fails
                    (run initial juan_received)) in
  let st2 := fst (post_process_pending io_ok st1) in
  received_patients st1 = [juan_record] /\
  received_patients st2 = [juan_record; juan_record] /\
  received_patients st2 <> received_patients st1 /\
  snd (post_process_pending io_ok st1)
  = ProcessAck true "1 records have been processed".
Proof. cbv zeta. repeat split. discriminate. Qed.

(** Requests that overlap: Juan's record is pending; a commit and the
    receipt of a second record arrive together, and both read the
    pending file before the commit clears it. Every file operation goes
    through and the timestamps differ; afterwards Juan's record is
    committed and pending again. *)
Example overlapping_requests_duplicate :
  let events :=
    (one_at_a_time juan_received ++
     [Arrive ProcessPending;
      Arrive (Receive "2025-06-01T09:00:00.000Z" odd_fhir);
      Resume 1 true; Resume 2 true;
      Resume 1 true; Resume 1 true; Resume 1 true;
      Resume 2 true])%list in
  let sys := @execute no_numbers (idle initial) events in
  tasks sys =
    [Answered (ReceiptAck "success"
                 "Patient data for Juan Dela Cruz received and pending review.");
     Answered (ProcessAck true "1 records have been processed");
     Answered (ReceiptAck "success"
                 "Patient data for Maria Santos received and pending review.")]
  /\
  received_patients (files sys) = [juan_record] /\
  pending_queue (files sys) =
    [juan_record; record_of "2025-06-01T09:00:00.000Z" odd_fhir] /\
  ~ disjoint (files sys).
Proof.
  cbv zeta. split; [reflexivity |]. split; [reflexivity |].
  split; [reflexivity |].
  intros H. apply (H juan_record); left; reflexivity.
Qed.

Lemma commit_moves_the_batch_witness :
  @disjoint no_numbers
    (files (execute (idle initial) (one_at_a_time juan_committed))) /\
  pending_queue (fst (@post_process_pending no_numbers io_ok
                        (run initial juan_received))) = [] /\
  fst (@post_process_pending no_numbers
         {| load_pending_ok := true; load_received_ok := true;
            save_received_ok := false; save_pending_ok := false |}
         (run initial juan_received))
  = run initial juan_received.
Proof.
  destruct (@commit_moves_the_batch no_numbers) as (Hrun & Hcommit & Hnone).
  split; [| split].
  - apply Hrun.
    + repeat constructor.
    + repeat constructor. intros [].
  - apply (Hcommit (run initial juan_received)).
  - apply Hnone; reflexivity.
Defined.

Lemma commit_all_idempotent_witness :
  let st1 := fst (@post_process_pending no_numbers io_ok
                    (run initial juan_received)) in
  received_patients (fst (post_process_pending io_ok st1)) = [juan_record] /\
  snd (post_process_pending io_ok st1) =
    ProcessAck true "0 records have been processed".
Proof.
  cbv zeta.
  destruct (@commit_all_idempotent no_numbers (run initial juan_received)
              io_ok io_ok eq_refl eq_refl) as (Hsame & _ & Hzero).
  split; [rewrite Hsame; reflexivity | exact Hzero].
Defined.

(** C9 as stated fails on the empty term: every name contains it, and
    the search returns no record. *)
Lemma search_empty_term_returns_nothing :
  let st := @run no_numbers initial juan_committed in
  In juan_record (received_patients st) /\
  ci_contains (full_name (details juan_record)) "" /\
  get_search io_ok (JStr "") st = SearchResults [].
Proof.
  cbv zeta. split; [left; reflexivity |].
  split; [| reflexivity].
  exists "", "juan dela cruz". reflexivity.
Qed.

Lemma search_returns_matches_witness :
  let st := @run no_numbers initial juan_committed in
  get_search io_ok (JStr "dela") st = SearchResults [juan_record] /\
  exists results,
    get_search io_ok (JStr "Dela Cruz") st = SearchResults results /\
    In juan_record results.
Proof.
  cbv zeta.
  assert (Hids : forall r,
            In r (received_patients (@run no_numbers initial juan_committed)) ->
            exists id, patient_id (details r) = JStr id).
  { intros r [<- | []]. eexists. reflexivity. }
  destruct (@search_returns_matches no_numbers io_ok
              (run initial juan_committed) eq_refl Hids)
    as (_ & Hterm & Hfamily).
  split.
  - destruct (Hterm "dela") as (Hsearch & _); [discriminate |].
    rewrite Hsearch. reflexivity.
  - apply (Hfamily juan_record juan_fhir).
    + left. reflexivity.
    + reflexivity.
    + reflexivity.
Defined.

End ConcreteHospital.

(** * Further properties of the translation service *)

Section InteropFurther.

Import Interop.
Context {R : Runtime}.

Lemma find_tool_string (s : string) :
  find_tool (PyStr s) =
  Ok (if String.eqb s "convert_hl7_to_fhir"
      then Some ("convert_hl7_to_fhir", convert_hl7_to_fhir)
      else None).
Proof. reflexivity. Qed.

(** X1: A successful answer of the endpoint carries the output of
    [convert_hl7_to_fhir] on the request data, that output has passed
    [validate_fhir_patient], the AI has named the tool, and the tool ran
    once. *)
Theorem translate_success_is_validated (ai_response : Exc PyVal)
    (request_data : dict) (calls : list string) (status : string)
    (translated_data : PyVal) :
  translate_data ai_response request_data
    = (calls, TranslationResponse status translated_data) ->
  status = "success" /\
  calls = ["convert_hl7_to_fhir"] /\
  requested_tool ai_response = Ok (PyStr "convert_hl7_to_fhir") /\
  convert_hl7_to_fhir request_data = Ok translated_data /\
  validate_fhir_patient translated_data = Ok true.
Proof.
  unfold translate_data.
  destruct (requested_tool ai_response) as [tool_name|e]; [| discriminate].
  destruct tool_name as [| b | z | mt ex | s | l | d]; cbn [find_tool];
    try discriminate.
  change (find _ AVAILABLE_TOOLS) with
    (if String.eqb s "convert_hl7_to_fhir"
     then Some ("convert_hl7_to_fhir", convert_hl7_to_fhir)
     else @None (string * tool)).
  destruct (String.eqb_spec s "convert_hl7_to_fhir") as [-> | _];
    [| discriminate].
  destruct (convert_hl7_to_fhir request_data) as [td|e] eqn:Hconv.
  2:{ destruct e; discriminate. }
  destruct (validate_fhir_patient td) as [[|]|e] eqn:Hval; try discriminate.
  intros H. injection H as <- <- <-. repeat split; assumption.
Qed.

(** X2: The tool reads four keys of the payload and nothing else: payloads
    that agree on [patientId], [lastName], [firstName] and [dateOfBirth]
    are translated alike. *)
Theorem convert_reads_four_fields (d1 d2 : dict) :
  (forall k, In k ["patientId"; "lastName"; "firstName"; "dateOfBirth"] ->
             lookup k d1 = lookup k d2) ->
  convert_hl7_to_fhir d1 = convert_hl7_to_fhir d2.
Proof.
  intros H.
  unfold convert_hl7_to_fhir, birth_date, dict_get, dict_item.
  rewrite (H "patientId"), (H "lastName"), (H "firstName"), (H "dateOfBirth")
    by (cbn; tauto).
  reflexivity.
Qed.

(** What the tool returns for a [dateOfBirth] that is a string. *)
Lemma convert_of_string_date (hl7_data : dict) (s : string) :
  lookup "dateOfBirth" hl7_data = Some (PyStr s) ->
  convert_hl7_to_fhir hl7_data =
  Ok (PyDict
        [("resourceType", PyStr "Patient");
         ("identifier",
          PyList [PyDict [("system", PyStr "urn:clinic:patient-id");
                          ("value", dict_get hl7_data "patientId")]]);
         ("name",
          PyList [PyDict [("family", dict_get hl7_data "lastName");
                          ("given", PyList [dict_get hl7_data "firstName"])]]);
         ("birthDate",
          PyStr (str_slice 0 4 s ++ "-" ++ str_slice 4 6 s ++ "-"
                 ++ str_slice 6 8 s))]).
Proof.
  intros Hdob. unfold convert_hl7_to_fhir, birth_date, dict_item.
  rewrite Hdob. reflexivity.
Qed.

(** X3: With a [dateOfBirth] string and the tool named by the AI, the whole
    request stands or falls with [lastName]: when it is missing or
    [None] the endpoint answers 500 "Validation Failed"; when it is
    there and the library builds the resource, the endpoint answers
    with the translated resource. *)
Theorem translation_needs_last_name (ai_response : Exc PyVal)
    (request_data : dict) (s : string) :
  requested_tool ai_response = Ok (PyStr "convert_hl7_to_fhir") ->
  lookup "dateOfBirth" request_data = Some (PyStr s) ->
  (dict_get request_data "lastName" = PyNone ->
   translate_data ai_response request_data =
   (["convert_hl7_to_fhir"],
    HTTPException 500
      "Validation Failed: AI produced an invalid FHIR resource."))
  /\
  (dict_get request_data "lastName" <> PyNone ->
   forall translated_data,
     convert_hl7_to_fhir request_data = Ok translated_data ->
     from_data_error translated_data = None ->
     translate_data ai_response request_data =
     (["convert_hl7_to_fhir"], TranslationResponse "success" translated_data)).
Proof.
  intros Hreq Hdob.
  pose proof (convert_of_string_date request_data s Hdob) as Hconv.
  split.
  - intros Hlast. unfold translate_data. rewrite Hreq, find_tool_string.
    cbn [String.eqb Ascii.eqb Bool.eqb]. rewrite Hconv.
    match goal with
    | |- context [validate_fhir_patient ?td] =>
        destruct (validate_fhir_patient td) as [[|]|e] eqn:Hval
    end.
    + apply validate_accepts_iff in Hval.
      destruct Hval as (_ & _ & (n & f & Hn & Hf & Hne)).
      cbn in Hn. injection Hn as <-. cbn in Hf. injection Hf as <-.
      congruence.
    + reflexivity.
    + unfold validate_fhir_patient, try_except in Hval.
      destruct (validate_body _); discriminate.
  - intros Hlast td Htd Hlib. unfold translate_data.
    rewrite Hreq, find_tool_string.
    cbn [String.eqb Ascii.eqb Bool.eqb]. rewrite Htd.
    assert (Hval : validate_fhir_patient td = Ok true).
    { apply validate_accepts_iff. rewrite Hconv in Htd.
      injection Htd as <-. split; [exact Hlib |]. split.
      - eexists. split; reflexivity.
      - eexists _, _. split; [reflexivity |]. split; [reflexivity |].
        exact Hlast. }
    rewrite Hval. reflexivity.
Qed.

(** X4: A request without [dateOfBirth], with the tool named by the AI, is
    answered 400: the [ValueError] of the tool becomes the detail
    "Translation error: ...", and the tool ran once. *)
Theorem missing_date_is_bad_request (ai_response : Exc PyVal)
    (request_data : dict) :
  requested_tool ai_response = Ok (PyStr "convert_hl7_to_fhir") ->
  lookup "dateOfBirth" request_data = None ->
  translate_data ai_response request_data =
  (["convert_hl7_to_fhir"],
   HTTPException 400
     "Translation error: Missing or malformed HL7 data: 'dateOfBirth'").
Proof.
  intros Hreq Hdob. unfold translate_data. rewrite Hreq, find_tool_string.
  cbn [String.eqb Ascii.eqb Bool.eqb].
  unfold convert_hl7_to_fhir, birth_date, dict_item. rewrite Hdob.
  reflexivity.
Qed.

(** X5: A [dateOfBirth] that is [None], a boolean or a number cannot be
    sliced: the tool raises [TypeError], which its [except] clause does
    not turn into [ValueError], and the endpoint lets it through instead
    of answering 400. *)
Theorem unsliceable_date_is_unhandled (ai_response : Exc PyVal)
    (request_data : dict) (dateOfBirth : PyVal) :
  requested_tool ai_response = Ok (PyStr "convert_hl7_to_fhir") ->
  lookup "dateOfBirth" request_data = Some dateOfBirth ->
  (type_name dateOfBirth = "NoneType" \/ type_name dateOfBirth = "bool" \/
   type_name dateOfBirth = "int" \/ type_name dateOfBirth = "float") ->
  convert_hl7_to_fhir request_data
    = Raise (TypeError ("'" ++ type_name dateOfBirth
                        ++ "' object is not subscriptable"))
  /\
  translate_data ai_response request_data =
  (["convert_hl7_to_fhir"],
   Unhandled (TypeError ("'" ++ type_name dateOfBirth
                         ++ "' object is not subscriptable"))).
Proof.
  intros Hreq Hdob Htype.
  assert (Hconv : convert_hl7_to_fhir request_data
                  = Raise (not_subscriptable dateOfBirth)).
  { unfold convert_hl7_to_fhir, birth_date, dict_item. rewrite Hdob.
    destruct dateOfBirth; cbn in Htype;
      try (destruct Htype as [H | [H | [H | H]]]; discriminate);
      reflexivity. }
  split; [exact Hconv |].
  unfold translate_data. rewrite Hreq, find_tool_string.
  cbn [String.eqb Ascii.eqb Bool.eqb]. rewrite Hconv. reflexivity.
Qed.

(** X6: When the tool name cannot be read from the answer of the AI, the
    endpoint answers 500 "AI service error" and calls no tool: when the
    service call raises, when the message of the first choice has no
    [tool_calls], when [tool_calls] is [None], and when it is an empty
    list. *)
Theorem unreadable_ai_answer (request_data : dict) :
  (forall e,
     translate_data (Raise e) request_data =
     ([], HTTPException 500 ("AI service error: " ++ str_exn e)))
  /\
  (forall answer choice others message,
     lookup "choices" answer = Some (PyList (PyDict choice :: others)) ->
     lookup "message" choice = Some (PyDict message) ->
     (lookup "tool_calls" message = None ->
      translate_data (Ok (PyDict answer)) request_data =
      ([], HTTPException 500 "AI service error: 'tool_calls'"))
     /\
     (lookup "tool_calls" message = Some PyNone ->
      translate_data (Ok (PyDict answer)) request_data =
      ([], HTTPException 500
             "AI service error: 'NoneType' object is not subscriptable"))
     /\
     (lookup "tool_calls" message = Some (PyList []) ->
      translate_data (Ok (PyDict answer)) request_data =
      ([], HTTPException 500 "AI service error: list index out of range"))).
Proof.
  split; [reflexivity |].
  intros answer choice others message Hchoices Hmessage.
  assert (Hmsg : requested_tool (Ok (PyDict answer)) =
                 bind (item (PyDict message) "tool_calls")
                   (fun tool_calls =>
                      bind (item0 tool_calls)
                        (fun tool_call =>
                           bind (item tool_call "function")
                             (fun function => item function "name")))).
  { unfold requested_tool. cbn [bind item]. unfold dict_item at 1.
    rewrite Hchoices. cbn [bind item0 item]. unfold dict_item at 1.
    rewrite Hmessage. reflexivity. }
  split; [| split]; intros Htc;
    unfold translate_data; rewrite Hmsg; cbn [item]; unfold dict_item;
    rewrite Htc; reflexivity.
Qed.

(** X7: The verdict of the validator depends on [resourceType] and [name]
    alone: two resources that the library builds and that agree on these
    two keys get the same verdict, whatever their identifiers, birth
    dates and other keys are. *)
Theorem validate_reads_type_and_name (d1 d2 : dict) :
  from_data_error (PyDict d1) = None ->
  from_data_error (PyDict d2) = None ->
  lookup "resourceType" d1 = lookup "resourceType" d2 ->
  lookup "name" d1 = lookup "name" d2 ->
  validate_fhir_patient (PyDict d1) = validate_fhir_patient (PyDict d2).
Proof.
  intros H1 H2 Htype Hname.
  unfold validate_fhir_patient, validate_body, from_data.
  rewrite H1, H2. cbn [bind getattr]. rewrite Htype, Hname. reflexivity.
Qed.

(** X8: A tool name that is not a string never runs a tool: a list or a dict
    cannot be looked up in [AVAILABLE_TOOLS] and the [TypeError] leaves
    the endpoint unhandled; every other value is answered 400 "Unknown
    tool". *)
Theorem non_string_tool_name (ai_response : Exc PyVal) (request_data : dict)
    (tool_name : PyVal) :
  requested_tool ai_response = Ok tool_name ->
  (forall s, tool_name <> PyStr s) ->
  translate_data ai_response request_data =
  ([], match tool_name with
       | PyList _ | PyDict _ =>
           Unhandled (TypeError ("unhashable type: '" ++ type_name tool_name
                                 ++ "'"))
       | _ =>
           HTTPException 400
             ("Unknown tool requested by AI: " ++ py_format tool_name)
       end).
Proof.
  intros Hreq Hname. unfold translate_data. rewrite Hreq.
  destruct tool_name; try reflexivity.
  exfalso. now apply (Hname s).
Qed.

End InteropFurther.

(** * Further properties of the hospital's server *)

Section HospitalFurther.

Import Hospital HospitalRuns.
Context {N : JSNumber}.

Lemma received_records_kept_from (reqs : list (IO * Request)) (st : Store) :
  fault_free reqs ->
  (received_patients (run st reqs) ++ pending_queue (run st reqs) =
   received_patients st ++ pending_queue st ++ receipts reqs)%list.
Proof.
  revert st. induction reqs as [|[io req] reqs IH]; intros st Hff.
  - cbn. now rewrite app_nil_r.
  - inversion Hff as [|? ? Hio Hff']; subst. cbn in Hio. subst io.
    unfold run. cbn [fold_left].
    change (fold_left handle reqs ?s) with (run s reqs).
    rewrite IH by exact Hff'.
    destruct req as [now fhirData|].
    + rewrite receive_appends. cbn [pending_queue received_patients receipts].
      rewrite <- !app_assoc. reflexivity.
    + rewrite process_moves. cbn [pending_queue received_patients receipts app].
      rewrite <- !app_assoc. reflexivity.
Qed.

Lemma committed_stay_committed (reqs : list (IO * Request)) (st : Store) :
  fault_free reqs ->
  exists moved, received_patients (run st reqs)
                = (received_patients st ++ moved)%list.
Proof.
  intros Hff.
  revert st. induction reqs as [|[io req] reqs IH]; intros st.
  - exists []. cbn. now rewrite app_nil_r.
  - inversion Hff as [|? ? Hio Hff']; subst. cbn in Hio. subst io.
    unfold run. cbn [fold_left].
    change (fold_left handle reqs ?s) with (run s reqs).
    destruct (IH Hff' (handle st (io_ok, req))) as (moved & ->).
    destruct req as [now fhirData|].
    + rewrite receive_appends. cbn [received_patients]. now exists moved.
    + rewrite process_moves. cbn [received_patients].
      exists (pending_queue st ++ moved)%list. now rewrite app_assoc.
Qed.

(** X9: When the requests are served one at a time, each one answered
    before the next arrives, and every file operation goes through, the
    committed records followed by the pending ones are the records that
    the files held followed by those of the receipts, in the order of
    arrival: a commit moves records without losing, repeating or
    reordering any, and what is committed stays committed. *)
Theorem received_records_are_kept (reqs : list (IO * Request)) (st : Store) :
  fault_free reqs ->
  (received_patients (files (execute (idle st) (one_at_a_time reqs)))
   ++ pending_queue (files (execute (idle st) (one_at_a_time reqs))) =
   received_patients st ++ pending_queue st ++ receipts reqs)%list /\
  exists moved,
    received_patients (files (execute (idle st) (one_at_a_time reqs)))
    = (received_patients st ++ moved)%list.
Proof.
  intros Hff. rewrite served_one_at_a_time.
  split; [now apply received_records_kept_from
         | now apply committed_stay_committed].
Qed.

(** X11: A commit whose two writes fail still answers with [success: true]
    and the number of pending records, while both files are as they
    were. *)
Theorem commit_reports_success_unsaved (io : IO) (st : Store) :
  load_pending_ok io = true ->
  save_received_ok io = false ->
  save_pending_ok io = false ->
  post_process_pending io st =
  (st, ProcessAck true
         (count_to_string (List.length (pending_queue st))
          ++ " records have been processed")).
Proof.
  intros Hload Hr Hp.
  unfold post_process_pending, saveJsonFile, loadJsonFile.
  rewrite Hload, Hr, Hp. destruct st. reflexivity.
Qed.

(** X12: [loadJsonFile] answers a failed read with the empty array, and the
    handlers write back what they built on it. A receipt that cannot
    read the pending file replaces the queue by its own record; a commit
    that cannot read the committed file replaces the committed records
    by the pending ones; a commit that cannot read the pending file
    empties it and reports zero records. *)
Theorem failed_read_overwrites (io : IO) (st : Store) :
  (forall now fhirData,
     load_pending_ok io = false -> save_pending_ok io = true ->
     pending_queue (fst (post_fhir_patient io now fhirData st))
     = [record_of now fhirData])
  /\
  (load_pending_ok io = true -> load_received_ok io = false ->
   save_received_ok io = true ->
   received_patients (fst (post_process_pending io st)) = pending_queue st)
  /\
  (load_pending_ok io = false -> load_received_ok io = true ->
   save_pending_ok io = true ->
   pending_queue (fst (post_process_pending io st)) = [] /\
   received_patients (fst (post_process_pending io st)) = received_patients st /\
   snd (post_process_pending io st)
   = ProcessAck true "0 records have been processed").
Proof.
  split; [| split].
  - intros now fhirData Hload Hsave.
    unfold post_fhir_patient, saveJsonFile, loadJsonFile.
    rewrite Hload, Hsave. reflexivity.
  - intros Hp Hr Hs.
    unfold post_process_pending, saveJsonFile, loadJsonFile.
    rewrite Hp, Hr, Hs. reflexivity.
  - intros Hp Hr Hs.
    unfold post_process_pending, saveJsonFile, loadJsonFile.
    rewrite Hp, Hr, Hs. cbn. rewrite app_nil_r.
    destruct (save_received_ok io); repeat split.
Qed.

(** The callback of [filter] throws on a list exactly when some record
    of the list has a [patient_id] that is not a string. *)
Lemma filter_records_throws (searchTerm : string) (patients : list PendingRecord) :
  (exists error, filter_records (matches searchTerm) patients = Throw error) <->
  exists r, In r patients /\ forall id, patient_id (details r) <> JStr id.
Proof.
  induction patients as [|p rest IH].
  - cbn. split; [intros (e & H); discriminate | intros (r & [] & _)].
  - cbn [filter_records]. unfold matches at 1.
    destruct (patient_id (details p)) as [| | b | n | id | l | f] eqn:Hid;
      cbn [call_toLowerCase andThen];
      try (split; [intros _; exists p; split;
                   [now left | intros id'; rewrite Hid; discriminate]
                  | intros _; eexists; reflexivity]).
    destruct (includes (toLowerCase id) searchTerm); cbn [andThen];
      (destruct (filter_records (matches searchTerm) rest) as [kept|e] eqn:Hrest;
       cbn [andThen];
       [ split; [intros (e & H); discriminate |];
         intros (r & [<- | Hin] & Hr);
         [ exfalso; apply (Hr id); exact Hid
         | destruct IH as [_ IH]; destruct IH as (e & He);
           [eauto | discriminate] ]
       | split; [| intros _; eauto];
         intros _; destruct IH as [IH _];
         destruct IH as (r & Hin & Hr); [eauto |];
         exists r; split; [now right | exact Hr] ]).
Qed.

(** X13: The search answers 500 "Search failed" in two cases only: the query
    is truthy and not a string (an array or an object of the query
    string), or some record read from the committed file has a
    [patient_id] that is not a string. One such record makes every
    search fail. *)
Theorem search_fails_iff (io : IO) (query : JSValue) (st : Store) :
  get_search io query st = ServerError "Search failed" <->
  truthy query = true /\
  ((forall q, query <> JStr q) \/
   exists r,
     In r (loadJsonFile (received_patients st) (load_received_ok io)) /\
     forall id, patient_id (details r) <> JStr id).
Proof.
  unfold get_search.
  destruct (truthy query) eqn:Htruthy; cbn [negb].
  2:{ split; [discriminate | intros (H & _); discriminate]. }
  destruct query as [| | b | n | q | l | f]; cbn [call_toLowerCase andThen];
    try (split; [intros _; split; [reflexivity | left; intros q; discriminate]
                | reflexivity]).
  destruct (filter_records (matches (toLowerCase q))
              (loadJsonFile (received_patients st) (load_received_ok io)))
    as [results|e] eqn:Hfilter.
  - split; [discriminate |].
    intros (_ & [Hq | Hr]).
    + exfalso. now apply (Hq q).
    + apply (filter_records_throws (toLowerCase q)) in Hr.
      destruct Hr as (e & He).
      rewrite He in Hfilter. discriminate.
  - split; [| reflexivity].
    intros _. split; [reflexivity |]. right.
    apply (filter_records_throws (toLowerCase q)). eauto.
Qed.

Lemma toLowerCase_empty (s : string) : toLowerCase s = "" <-> s = "".
Proof.
  destruct s; cbn; split; congruence.
Qed.

(** X14: The search does not see the case of the letters of its term: two
    terms that differ in case only get the same answer. *)
Theorem search_ignores_case_of_term (io : IO) (q1 q2 : string) (st : Store) :
  toLowerCase q1 = toLowerCase q2 ->
  get_search io (JStr q1) st = get_search io (JStr q2) st.
Proof.
  intros Hlower. unfold get_search. cbn [truthy call_toLowerCase andThen].
  assert (Hempty : String.eqb q1 "" = String.eqb q2 "").
  { destruct (String.eqb_spec q1 "") as [-> | H1],
             (String.eqb_spec q2 "") as [-> | H2]; try reflexivity.
    - cbn in Hlower. symmetry in Hlower.
      apply (proj1 (toLowerCase_empty q2)) in Hlower. congruence.
    - cbn in Hlower. apply (proj1 (toLowerCase_empty q1)) in Hlower.
      congruence. }
  rewrite Hempty, Hlower. reflexivity.
Qed.

Lemma receipts_app (reqs1 reqs2 : list (IO * Request)) :
  receipts (reqs1 ++ reqs2) = (receipts reqs1 ++ receipts reqs2)%list.
Proof.
  induction reqs1 as [|[io [now fhirData|]] rest IH]; cbn [app receipts];
    [reflexivity | now rewrite IH | exact IH].
Qed.

Lemma pending_after_run (reqs later : list (IO * Request)) (st : Store) :
  fault_free reqs ->
  pending_queue st = receipts later ->
  pending_queue (run st reqs) =
  receipts
    (fold_left
       (fun later req =>
          match snd req with
          | ProcessPending => []
          | Receive _ _ => (later ++ [req])%list
          end)
       reqs later).
Proof.
  revert later st. induction reqs as [|[io req] reqs IH]; intros later st Hff Hst.
  - exact Hst.
  - inversion Hff as [|? ? Hio Hff']; subst. cbn in Hio. subst io.
    unfold run. cbn [fold_left].
    change (fold_left handle reqs ?s) with (run s reqs).
    apply IH; [exact Hff' |].
    destruct req as [now fhirData|]; cbn [snd].
    + rewrite receive_appends. cbn [pending_queue].
      rewrite receipts_app, Hst. reflexivity.
    + rewrite process_moves. reflexivity.
Qed.

(** X10: What the two listings show after requests that were served one
    at a time, each one answered before the next arrived, from the empty
    files and with every file operation going through: [/api/pending]
    lists the records received since the last commit, [/api/patients]
    the records received before it, each in the order of arrival. *)
Theorem listings_after_a_run (reqs : list (IO * Request)) :
  fault_free reqs ->
  get_pending io_ok (files (execute (idle initial) (one_at_a_time reqs)))
    = SearchResults (receipts (since_last_commit reqs)) /\
  (get_patients io_ok (files (execute (idle initial) (one_at_a_time reqs)))
     = SearchResults
         (received_patients
            (files (execute (idle initial) (one_at_a_time reqs)))) /\
   received_patients (files (execute (idle initial) (one_at_a_time reqs)))
   ++ receipts (since_last_commit reqs)
     = receipts reqs)%list.
Proof.
  intros Hff. rewrite served_one_at_a_time.
  assert (Hpending : pending_queue (run initial reqs)
                     = receipts (since_last_commit reqs)).
  { apply (pending_after_run reqs [] initial Hff). reflexivity. }
  split; [unfold get_pending; cbn [loadJsonFile load_pending_ok io_ok];
          now rewrite Hpending |].
  split; [reflexivity |].
  rewrite <- Hpending.
  apply (received_records_kept_from reqs initial Hff).
Qed.

(** X29: A receipt that overlaps a commit can be lost. The commit and the
    receipt both read the pending file, the receipt writes its record
    behind what it read, and the commit then clears the pending file:
    every file operation goes through, the receipt is acknowledged, and
    the files are as if it had never arrived, so that a record that was
    in neither file before is in neither file afterwards. *)
Theorem overlapping_receipt_is_lost (st : Store) (now : string)
    (fhirData : JSValue) (text : string) :
  to_string (patient_id (extractPatientDetails fhirData)) = Normal text ->
  ~ In (record_of now fhirData) (received_patients st ++ pending_queue st) ->
  let sys :=
    execute (idle st)
      [Arrive ProcessPending; Arrive (Receive now fhirData);
       Resume 0 true; Resume 1 true; Resume 1 true;
       Resume 0 true; Resume 0 true; Resume 0 true] in
  tasks sys =
    [Answered (snd (post_process_pending io_ok st));
     Answered
       (ReceiptAck "success"
          ("Patient data for " ++ full_name (extractPatientDetails fhirData)
           ++ " received and pending review."))] /\
  files sys = fst (post_process_pending io_ok st) /\
  ~ In (record_of now fhirData) (pending_queue (files sys)) /\
  ~ In (record_of now fhirData) (received_patients (files sys)).
Proof.
  intros Htext Hnew. cbv zeta.
  assert (Hfiles :
            files (execute (idle st)
                     [Arrive ProcessPending; Arrive (Receive now fhirData);
                      Resume 0 true; Resume 1 true; Resume 1 true;
                      Resume 0 true; Resume 0 true; Resume 0 true])
            = fst (post_process_pending io_ok st)) by reflexivity.
  split.
  - cbn. unfold receipt_reply. now rewrite Htext.
  - rewrite Hfiles. split; [reflexivity |]. split.
    + intros [].
    + exact Hnew.
Qed.

(** X30: A commit that overlaps a receipt can leave its batch in both files.
    The commit and the receipt both read the pending file, the commit
    writes both files, and the receipt then writes what it read with its
    record behind: every file operation goes through, and every record
    that was pending is committed and pending again. *)
Theorem overlapping_commit_is_repeated (st : Store) (now : string)
    (fhirData : JSValue) :
  let sys :=
    execute (idle st)
      [Arrive ProcessPending; Arrive (Receive now fhirData);
       Resume 0 true; Resume 1 true;
       Resume 0 true; Resume 0 true; Resume 0 true;
       Resume 1 true] in
  tasks sys =
    [Answered (snd (post_process_pending io_ok st));
     Answered (snd (post_fhir_patient io_ok now fhirData st))] /\
  received_patients (files sys)
    = (received_patients st ++ pending_queue st)%list /\
  pending_queue (files sys)
    = (pending_queue st ++ [record_of now fhirData])%list /\
  forall r, In r (pending_queue st) ->
            In r (pending_queue (files sys)) /\
            In r (received_patients (files sys)).
Proof.
  cbv zeta. split; [reflexivity |]. split; [reflexivity |].
  split; [reflexivity |].
  intros r Hr. split; apply in_or_app; [now left | now right].
Qed.

End HospitalFurther.

(** * Further properties of the extraction and of its display *)

Section ExtractionFurther.

Import Hospital HospitalApp.
Context {N : JSNumber}.

Lemma or_else_Unknown_truthy (v : JSValue) : truthy (or_else v Unknown) = true.
Proof.
  unfold or_else. destruct (truthy v) eqn:H; [exact H | reflexivity].
Qed.


(** X15: Every display field of an extracted record is truthy, so none is
    [undefined], [null] or the empty string, and the full name is never
    empty, whatever body was received. *)
Theorem display_fields_are_truthy (fhirData : JSValue) :
  truthy (patient_id (extractPatientDetails fhirData)) = true /\
  truthy (given_name (extractPatientDetails fhirData)) = true /\
  truthy (family_name (extractPatientDetails fhirData)) = true /\
  truthy (birth_date (extractPatientDetails fhirData)) = true /\
  truthy (gender (extractPatientDetails fhirData)) = true /\
  full_name (extractPatientDetails fhirData) <> "".
Proof.
  unfold extractPatientDetails.
  destruct (extract_body fhirData) as [d|e] eqn:H.
  2:{ cbn. repeat split; discriminate. }
  unfold extract_body in H.
  apply andThen_Normal in H; destruct H as (identifier & Hid & H).
  apply andThen_Normal in H; destruct H as (has_id & Hhas & H).
  apply andThen_Normal in H; destruct H as (patientId & Hpid & H).
  repeat (apply andThen_Normal in H; destruct H as (? & ? & H)).
  injection H as <-. cbn [patient_id given_name family_name full_name
                          birth_date gender].
  split; [| repeat split; try apply or_else_Unknown_truthy].
  - destruct has_id.
    + repeat (apply andThen_Normal in Hpid; destruct Hpid as (? & ? & Hpid)).
      injection Hpid as <-. apply or_else_Unknown_truthy.
    + now injection Hpid as <-.
  - match goal with
    | |- (?g ++ String " " ?f)%string <> "" => destruct g; discriminate
    end.
Qed.

(** X16: A resource of the expected shape is displayed with its own values:
    when the first identifier has a string [value], and the first name
    block a string [family] and a list [given] that starts with a string,
    none of them empty, the record carries these three strings, and the
    full name is the given name, a space and the family name. *)
Theorem details_of_a_patient_resource
    (fields idFields nameFields : list (string * JSValue))
    (identifiers names givens : list JSValue) (id given family : string) :
  own "identifier" fields = Some (JArr (JObj idFields :: identifiers)) ->
  own "value" idFields = Some (JStr id) ->
  own "name" fields = Some (JArr (JObj nameFields :: names)) ->
  own "family" nameFields = Some (JStr family) ->
  own "given" nameFields = Some (JArr (JStr given :: givens)) ->
  id <> "" -> given <> "" -> family <> "" ->
  patient_id (extractPatientDetails (JObj fields)) = JStr id /\
  given_name (extractPatientDetails (JObj fields)) = JStr given /\
  family_name (extractPatientDetails (JObj fields)) = JStr family /\
  full_name (extractPatientDetails (JObj fields)) = given ++ " " ++ family /\
  original_fhir (extractPatientDetails (JObj fields)) = JObj fields.
Proof.
  intros Hids Hvalue Hnames Hfamily Hgiven Hid Hg Hf.
  apply String.eqb_neq in Hid, Hg, Hf.
  assert (Hkeep : forall s, (s =? "")%string = false ->
                            or_else (JStr s) Unknown = JStr s).
  { intros s Hs. unfold or_else. cbn [truthy]. now rewrite Hs. }
  unfold extractPatientDetails, extract_body.
  cbn [get]. rewrite Hids, Hnames.
  cbn [andThen non_empty truthy length_gt_zero List.length Nat.ltb Nat.leb
       get0 get].
  rewrite Hvalue, Hfamily, Hgiven.
  cbn [andThen get0]. rewrite !(Hkeep _ Hid), !(Hkeep _ Hf).
  change (or_else (JArr (JStr given :: givens)) (JArr [Unknown]))
    with (JArr (JStr given :: givens)).
  cbn [andThen get0]. rewrite !(Hkeep _ Hg).
  cbn [andThen to_string].
  destruct (own "birthDate" fields), (own "gender" fields);
    cbn [andThen]; repeat split.
Qed.

Lemma andThen_throws {A B} (c : Completion A) (k : A -> Completion B) :
  (forall a, exists error, k a = Throw error) ->
  exists error, andThen c k = Throw error.
Proof.
  intros Hk. destruct c as [a|e]; cbn; [apply Hk | eauto].
Qed.

(** X17: One [null] spoils the whole record: when the list of identifiers or
    the list of names starts with [null], every display field is the
    one of the ["Error"] record, also those that the body does carry. *)
Theorem null_block_gives_error_record (fields : list (string * JSValue))
    (rest : list JSValue) :
  own "identifier" fields = Some (JArr (JNull :: rest)) \/
  own "name" fields = Some (JArr (JNull :: rest)) ->
  extractPatientDetails (JObj fields) = error_details (JObj fields).
Proof.
  intros H.
  assert (Hthrow : exists error, extract_body (JObj fields) = Throw error).
  { unfold extract_body. destruct H as [Hids | Hnames].
    - cbn [get]. rewrite Hids. cbn. eauto.
    - apply andThen_throws. intros identifier.
      apply andThen_throws. intros has_id.
      apply andThen_throws. intros patientId.
      cbn [get]. rewrite Hnames. cbn. eauto. }
  destruct Hthrow as (e & He).
  unfold extractPatientDetails. now rewrite He.
Qed.


End ExtractionFurther.

(** * Properties of the clinic's server *)

Lemma eight_characters (s : string) :
  String.length s = 8 ->
  exists y m d, s = y ++ m ++ d /\
                String.length y = 4 /\ String.length m = 2 /\
                String.length d = 2.
Proof.
  intros H.
  destruct s as [|c1 [|c2 [|c3 [|c4 [|c5 [|c6 [|c7 [|c8 [|c9 s]]]]]]]]];
    try discriminate.
  exists (String c1 (String c2 (String c3 (String c4 "")))),
         (String c5 (String c6 "")), (String c7 (String c8 "")).
  repeat split.
Qed.

Section ClinicDates.

Import Hospital Clinic.
Context {N : JSNumber}.

(** X19: [formatDateOfBirth] is idempotent: a date of eight characters gets its
    dashes, which makes it ten characters long, and every other value,
    the formatted date among them, is returned as it is. *)
Theorem formatDateOfBirth_idempotent (dob : JSValue) :
  formatDateOfBirth (formatDateOfBirth dob) = formatDateOfBirth dob /\
  (formatDateOfBirth dob <> dob ->
   exists s, dob = JStr s /\ String.length s = 8).
Proof.
  destruct dob as [| | b | n | s | l | f];
    try (split; [reflexivity | intros H; now contradiction H]).
  unfold formatDateOfBirth at 2 3 4.
  destruct (Nat.eqb_spec (String.length s) 8) as [Hlen | Hlen].
  - split; [| intros _; eauto].
    destruct (eight_characters s Hlen) as (y & m & d & -> & Hy & Hm & Hd).
    destruct (slices_of_date y m d Hy Hm Hd) as (-> & -> & ->).
    unfold formatDateOfBirth.
    replace (String.length (y ++ "-" ++ m ++ "-" ++ d)) with 10;
      [reflexivity |].
    rewrite !length_append. cbn. lia.
  - split; [| intros H; now contradiction H].
    unfold formatDateOfBirth.
    destruct (Nat.eqb_spec (String.length s) 8); [contradiction | reflexivity].
Qed.

(** X20: On a date of eight digits [0] to [9] the clinic and the
    translation tool agree: [formatDateOfBirth] returns the text that
    [convert_hl7_to_fhir] puts into [birthDate]. (On such a string the
    characters of the model are the UTF-16 units that JavaScript counts
    and the code points that Python counts.) *)
Theorem date_formats_agree {R : Interop.Runtime} (hl7_data : Interop.dict)
    (s : string) :
  String.length s = 8 ->
  all_digits s = true ->
  Interop.lookup "dateOfBirth" hl7_data = Some (Interop.PyStr s) ->
  exists birthDate,
    Interop.birth_date hl7_data = Interop.Ok birthDate /\
    formatDateOfBirth (JStr s) = JStr birthDate.
Proof.
  intros Hlen _ Hdob.
  unfold Interop.birth_date, Interop.dict_item. rewrite Hdob.
  cbn [Interop.bind Interop.slice Interop.fmt].
  eexists. split; [reflexivity |].
  unfold formatDateOfBirth. now rewrite Hlen.
Qed.

End ClinicDates.

(** ** Patient numbers *)

Lemma parse_digits_step (c : ascii) (k : nat) (acc : option nat) (s : string) :
  Clinic.digit_value c = Some k ->
  Clinic.parse_digits acc (String c s) =
  Clinic.parse_digits
    (Some (10 * match acc with Some a => a | None => 0 end + k)) s.
Proof.
  intros H. cbn [Clinic.parse_digits]. now rewrite H.
Qed.

(** Reading back what [String(n)] prints. *)
Lemma parse_digits_of_uint (d : Decimal.uint) (acc : option nat) :
  Clinic.parse_digits acc (NilEmpty.string_of_uint d) =
  match d with
  | Decimal.Nil => acc
  | _ => Some (Nat.of_uint_acc d match acc with Some a => a | None => 0 end)
  end.
Proof.
  revert acc.
  induction d as [| d IH | d IH | d IH | d IH | d IH | d IH | d IH | d IH
                  | d IH | d IH]; intros acc; [reflexivity | ..];
    cbn [NilEmpty.string_of_uint];
    erewrite parse_digits_step by reflexivity;
    rewrite IH;
    match goal with
    | |- match d with Decimal.Nil => Some ?k | _ => _ end = _ =>
        transitivity (Some (Nat.of_uint_acc d k)); [destruct d; reflexivity |]
    end;
    f_equal; cbn [Nat.of_uint_acc]; rewrite Nat.tail_mul_spec;
    f_equal; cbn; lia.
Qed.

Lemma parseInt_digit_first (c : ascii) (k : nat) (r : string) :
  Clinic.digit_value c = Some k ->
  Clinic.parseInt (String c r) =
  option_map Z.of_nat (Clinic.parse_digits None (String c r)).
Proof.
  intros H.
  destruct c as [[] [] [] [] [] [] [] []]; cbn in H; try discriminate;
    reflexivity.
Qed.

Lemma parse_decimal (n : nat) (acc : option nat) :
  match acc with Some a => a | None => 0 end = 0 ->
  Clinic.parse_digits acc (Hospital.count_to_string n) = Some n.
Proof.
  intros Hacc. unfold Hospital.count_to_string, NilZero.string_of_uint.
  pose proof (DecimalNat.Unsigned.of_to n) as Hn.
  destruct (Nat.to_uint n) eqn:E;
    try (rewrite parse_digits_of_uint, Hacc; f_equal; exact Hn).
  cbn in Hn. subst n. erewrite parse_digits_step by reflexivity.
  cbn. now rewrite Hacc.
Qed.

Lemma decimal_starts_with_digit (n : nat) :
  exists c r k, Hospital.count_to_string n = String c r /\
                Clinic.digit_value c = Some k.
Proof.
  unfold Hospital.count_to_string, NilZero.string_of_uint.
  destruct (Nat.to_uint n); cbn [NilEmpty.string_of_uint];
    eexists _, _, _; split; reflexivity.
Qed.

(** The digits of a new identifier read back as the number they print. *)
Lemma parseInt_padStart3 (n : nat) :
  Clinic.parseInt (Clinic.padStart3 (Hospital.count_to_string n)) =
  Some (Z.of_nat n).
Proof.
  destruct (decimal_starts_with_digit n) as (c & r & k & Hs & Hc).
  unfold Clinic.padStart3.
  destruct (String.length (Hospital.count_to_string n)) as [|[|[|len]]].
  - cbn [append]. erewrite parseInt_digit_first by reflexivity.
    do 3 (erewrite parse_digits_step by reflexivity).
    rewrite parse_decimal by reflexivity. reflexivity.
  - cbn [append]. erewrite parseInt_digit_first by reflexivity.
    do 2 (erewrite parse_digits_step by reflexivity).
    rewrite parse_decimal by reflexivity. reflexivity.
  - cbn [append]. erewrite parseInt_digit_first by reflexivity.
    erewrite parse_digits_step by reflexivity.
    rewrite parse_decimal by reflexivity. reflexivity.
  - rewrite Hs. erewrite parseInt_digit_first by exact Hc.
    rewrite <- Hs. rewrite parse_decimal by reflexivity. reflexivity.
Qed.

Section ClinicPatients.

Import Hospital Clinic.
Context {N : JSNumber}.

(** After the loop, [lastId] is at least every number that the loop read
    from a stored identifier. *)
Lemma scan_ids_bound (patients : list JSValue) (lastId m : nat) :
  scan_ids lastId patients = Normal m ->
  lastId <= m /\
  forall q s idNum,
    In q patients -> get q "patientId" = Normal (JStr s) ->
    parseInt (replace_C s) = Some idNum -> (idNum <= Z.of_nat m)%Z.
Proof.
  revert lastId. induction patients as [|p rest IH]; intros lastId H.
  - cbn in H. injection H as <-. split; [lia | intros q s z []].
  - cbn [scan_ids] in H.
    apply andThen_Normal in H; destruct H as (pid & Hpid & H).
    apply andThen_Normal in H; destruct H as (digits & Hdigits & H).
    assert (Hnext : exists next,
              scan_ids next rest = Normal m /\ lastId <= next /\
              forall z, parseInt digits = Some z -> (z <= Z.of_nat next)%Z).
    { destruct (parseInt digits) as [z|].
      - destruct (Z.ltb_spec (Z.of_nat lastId) z) as [Hlt | Hge].
        + exists (Z.to_nat z). split; [exact H |]. split; [lia |].
          intros z' Hz'. injection Hz' as <-. lia.
        + exists lastId. split; [exact H |]. split; [lia |].
          intros z' Hz'. injection Hz' as <-. lia.
      - exists lastId. split; [exact H |]. split; [lia | discriminate]. }
    destruct Hnext as (next & Hscan & Hle & Hz).
    destruct (IH next Hscan) as (Hnm & Hrest).
    split; [lia |].
    intros q s z [<- | Hin] Hq Hparse.
    + rewrite Hq in Hpid. injection Hpid as <-.
      cbn in Hdigits. injection Hdigits as <-.
      specialize (Hz z Hparse). lia.
    + exact (Hrest q s z Hin Hq Hparse).
Qed.

Lemma new_patient_has_id (newId : string) (body p : JSValue) :
  new_patient newId body = Normal p ->
  exists fields, p = JObj fields /\ own "patientId" fields = Some (JStr newId).
Proof.
  unfold new_patient. intros H.
  repeat (apply andThen_Normal in H; destruct H as (? & ? & H)).
  injection H as <-. eexists. split; reflexivity.
Qed.

(** X21: The identifier that [POST /api/patients] gives to a new patient is
    carried by no patient read from the file, provided the stored
    identifiers have at most fifteen characters, for which [parseInt] is
    exact. The new patient is the last entry of the file written. *)
Theorem new_patient_id_is_fresh (io : FileIO) (body : JSValue) (file file' : File)
    (p : JSValue) :
  (forall q s, In q (snd (loadJsonFile file io [])) ->
               get q "patientId" = Normal (JStr s) -> String.length s <= 15) ->
  post_patients io body file = (file', Created p) ->
  exists newId fields,
    p = JObj fields /\
    own "patientId" fields = Some (JStr newId) /\
    file' = Some (snd (loadJsonFile file io []) ++ [p])%list /\
    forall q, In q (snd (loadJsonFile file io [])) ->
              get q "patientId" <> Normal (JStr newId).
Proof.
  intros _ H. unfold post_patients in H.
  set (patients := snd (loadJsonFile file io [])) in *.
  destruct (scan_ids 0 patients) as [m|e] eqn:Hscan; [| discriminate].
  cbn [andThen] in H.
  destruct (new_patient (new_id m) body) as [newPatient|e] eqn:Hnew;
    [| discriminate].
  unfold saveJsonFile in H.
  destruct (save_ok io); cbn [fst snd] in H; [| discriminate].
  injection H as <- <-.
  destruct (new_patient_has_id _ _ _ Hnew) as (fields & -> & Hown).
  exists (new_id m), fields. repeat split; try assumption.
  intros q Hin Hq.
  destruct (scan_ids_bound patients 0 m Hscan) as (_ & Hbound).
  specialize (Hbound q (new_id m) (Z.of_nat (m + 1)) Hin Hq).
  assert (Hparse : parseInt (replace_C (new_id m)) = Some (Z.of_nat (m + 1))).
  { unfold new_id. cbn [append replace_C Ascii.eqb Bool.eqb].
    apply parseInt_padStart3. }
  specialize (Hbound Hparse). lia.
Qed.

(** X22: [POST /api/patients] answers 201 only when the write went through,
    and then the file holds the patients that were read followed by the
    new one; when the write fails it answers 500 and the file is as the
    load left it. *)
Theorem created_means_saved (io : FileIO) (body : JSValue) (file : File) :
  (forall file' p,
     post_patients io body file = (file', Created p) ->
     save_ok io = true /\
     file' = Some (snd (loadJsonFile file io []) ++ [p])%list)
  /\
  (save_ok io = false ->
   fst (post_patients io body file) = fst (loadJsonFile file io []) /\
   exists error, snd (post_patients io body file) = Refused 500 error).
Proof.
  unfold post_patients.
  destruct (andThen (scan_ids 0 (snd (loadJsonFile file io [])))
              (fun lastId => new_patient (new_id lastId) body))
    as [newPatient|e].
  - unfold saveJsonFile. destruct (save_ok io); cbn [fst snd].
    + split; [| discriminate].
      intros file' p H. injection H as <- <-. split; reflexivity.
    + split; [intros file' p H; discriminate |].
      intros _. split; [reflexivity | eexists; reflexivity].
  - split; [intros file' p H; discriminate |].
    intros _. split; [reflexivity | eexists; reflexivity].
Qed.

(** X23: A body whose [gender] is not a string is refused with 500 "Failed to
    add new patient", whatever else it carries, and nothing is written
    for it. *)
Theorem gender_must_be_a_string (io : FileIO) (body gender : JSValue)
    (file : File) :
  get body "gender" = Normal gender ->
  (forall g, gender <> JStr g) ->
  post_patients io body file =
  (fst (loadJsonFile file io []), Refused 500 "Failed to add new patient").
Proof.
  intros Hgender Hnot. unfold post_patients.
  assert (Hthrow : forall newId, exists error,
            new_patient newId body = Throw error).
  { intros newId. unfold new_patient.
    destruct body as [| | b | n | s | l | fields]; try discriminate;
      cbn [get andThen] in *;
      try (injection Hgender as <-; cbn; eauto).
    destruct (own "firstName" fields), (own "lastName" fields),
             (own "dateOfBirth" fields); cbn [andThen];
      rewrite Hgender; cbn [andThen];
      (destruct gender; cbn; eauto; exfalso; eapply Hnot; reflexivity). }
  destruct (scan_ids 0 (snd (loadJsonFile file io []))) as [m|e];
    cbn [andThen]; [| reflexivity].
  destruct (Hthrow (new_id m)) as (e & ->). reflexivity.
Qed.

End ClinicPatients.

(** ** Sending a record *)

Section ClinicSending.

Import Hospital Clinic.
Context {N : JSNumber}.
Variable number_eq : number -> number -> bool.

Lemma own_set_field (k k' : string) (v : JSValue)
    (fields : list (string * JSValue)) :
  own k' (set_field k v fields) =
  if String.eqb k' k then Some v else own k' fields.
Proof.
  induction fields as [|[k0 x] rest IH]; cbn [set_field own].
  - destruct (String.eqb k' k); reflexivity.
  - destruct (String.eqb_spec k k0) as [<- | Hne]; cbn [own].
    + destruct (String.eqb k' k); reflexivity.
    + rewrite IH. destruct (String.eqb_spec k' k0) as [-> | Hne'].
      * destruct (String.eqb_spec k0 k) as [-> | _]; [congruence | reflexivity].
      * reflexivity.
Qed.

(** X24: Marking a patient as sent sets [sent_to_hospital] to [true] and
    leaves every other property of the patient as it was. *)
Theorem mark_sent_sets_one_property (fields : list (string * JSValue)) :
  get (mark_sent (JObj fields)) "sent_to_hospital" = Normal (JBool true) /\
  forall k, k <> "sent_to_hospital" ->
            get (mark_sent (JObj fields)) k = get (JObj fields) k.
Proof.
  cbn [mark_sent get]. split.
  - now rewrite own_set_field.
  - intros k Hk. rewrite own_set_field.
    destruct (String.eqb_spec k "sent_to_hospital"); [contradiction | reflexivity].
Qed.

(** [find] returns the first item whose property is strictly equal to
    the wanted value: the items before it are not equal to it, and the
    list is the items before, the item, and the items after. *)
Lemma find_by_found (key : string) (wanted : JSValue) (items : list JSValue)
    (before after : list JSValue) (x : JSValue) :
  find_by number_eq key wanted items = Normal (Some (before, x, after)) ->
  items = (before ++ x :: after)%list /\
  (exists v, get x key = Normal v /\ strict_equal number_eq v wanted = true) /\
  forall y, In y before ->
    exists v, get y key = Normal v /\ strict_equal number_eq v wanted = false.
Proof.
  revert before. induction items as [|i rest IH]; intros before H.
  - discriminate.
  - cbn [find_by] in H.
    apply andThen_Normal in H; destruct H as (v & Hv & H).
    destruct (strict_equal number_eq v wanted) eqn:Heq.
    + injection H as <- <- <-. split; [reflexivity |].
      split; [eauto | intros y []].
    + apply andThen_Normal in H; destruct H as (found & Hfound & H).
      destruct found as [[[b y] a]|]; [| discriminate].
      injection H as <- <- <-.
      destruct (IH b Hfound) as (-> & Hx & Hb).
      split; [reflexivity |]. split; [exact Hx |].
      intros z [<- | Hz]; [eauto | now apply Hb].
Qed.

Lemma find_by_none (key : string) (wanted : JSValue) (items : list JSValue) :
  find_by number_eq key wanted items = Normal None ->
  forall y, In y items ->
    exists v, get y key = Normal v /\ strict_equal number_eq v wanted = false.
Proof.
  induction items as [|i rest IH]; intros H y Hy; [destruct Hy |].
  cbn [find_by] in H.
  apply andThen_Normal in H; destruct H as (v & Hv & H).
  destruct (strict_equal number_eq v wanted) eqn:Heq; [discriminate |].
  apply andThen_Normal in H; destruct H as (found & Hfound & H).
  destruct found as [[[b z] a]|]; [discriminate |].
  destruct Hy as [<- | Hy]; [eauto | now apply IH].
Qed.

(** What was found for a truthy value is an object that has the
    property. *)
Lemma found_is_an_object (key : string) (wanted x v : JSValue) :
  truthy wanted = true ->
  get x key = Normal v -> strict_equal number_eq v wanted = true ->
  exists fields, x = JObj fields /\ own key fields = Some v.
Proof.
  intros Htruthy Hget Heq.
  assert (Hv : v <> JUndefined).
  { intros ->. destruct wanted; cbn in *; discriminate. }
  destruct x as [| | b | n | s | l | fields]; cbn [get] in Hget;
    try discriminate; try (injection Hget as <-; congruence).
  destruct (own key fields) as [x|] eqn:Hown.
  - injection Hget as <-. eauto.
  - injection Hget as <-. congruence.
Qed.

(** X25: When the interoperability service cannot be reached, or answers
    with an error status, the record counts as sent all the same: for a
    patient and a facility that are found and whose names print, the
    handler posts the patient once, answers [success: true], marks the
    patient, and appends the sent record; a file whose write goes
    through holds the result. *)
Theorem unreachable_service_counts_as_sent
    (io : SendIO) (now : string) (body : JSValue) (st : Store)
    (patientId targetFacilityId preferred : JSValue)
    (before after fbefore fafter : list JSValue)
    (patient facility : list (string * JSValue))
    (first last name : string) :
  get body "patientId" = Normal patientId ->
  get body "targetFacilityId" = Normal targetFacilityId ->
  truthy patientId = true -> truthy targetFacilityId = true ->
  find_by number_eq "patientId" patientId
    (snd (loadJsonFile (patients_file st) (patients_io io) []))
    = Normal (Some (before, JObj patient, after)) ->
  find_by number_eq "facility_id" targetFacilityId (snd (load_facilities io st))
    = Normal (Some (fbefore, JObj facility, fafter)) ->
  get (JObj facility) "preferred_format" = Normal preferred ->
  andThen (get (JObj patient) "firstName") to_string = Normal first ->
  andThen (get (JObj patient) "lastName") to_string = Normal last ->
  andThen (get (JObj facility) "facility_name") to_string = Normal name ->
  exists id sentRecord,
    own "patientId" patient = Some id /\
    strict_equal number_eq id patientId = true /\
    sentRecord = JObj (defined [("patientId", id);
                                ("patientName", JStr (first ++ " " ++ last));
                                ("sent_to", targetFacilityId);
                                ("sent_timestamp", JStr now);
                                ("status", JStr "sent")]) /\
    snd (post_send_record number_eq io None now body st)
    = Sent ("Patient record for " ++ (first ++ " " ++ last)
            ++ " successfully sent to " ++ name) sentRecord /\
    snd (fst (post_send_record number_eq io None now body st))
    = [payload_for targetFacilityId preferred (JObj patient)] /\
    (save_ok (patients_io io) = true ->
     patients_file (fst (fst (post_send_record number_eq io None now body st)))
     = Some (before ++ mark_sent (JObj patient) :: after)%list) /\
    (save_ok (sent_records_io io) = true ->
     sent_records_file
       (fst (fst (post_send_record number_eq io None now body st)))
     = Some (snd (loadJsonFile (sent_records_file st) (sent_records_io io) [])
             ++ [sentRecord])%list).
Proof.
  intros Hpid Htid Tpid Ttid Hpatient Hfacility Hpref Hfirst Hlast Hname.
  destruct (find_by_found _ _ _ _ _ _ Hpatient) as (_ & (id & Hget & Heq) & _).
  destruct (found_is_an_object _ _ _ _ Tpid Hget Heq) as (fields & Hfields & Hid).
  injection Hfields as <-.
  exists id. eexists. split; [exact Hid |]. split; [exact Heq |].
  split; [reflexivity |].
  unfold post_send_record.
  rewrite Hpid, Htid. cbn [andThen]. rewrite Tpid, Ttid. cbn [negb orb].
  rewrite Hpatient. cbn [andThen]. rewrite Hfacility. cbn [andThen].
  rewrite Hpref.
  unfold deliver. cbn [simulated_response get own String.eqb Ascii.eqb Bool.eqb
                       strict_equal].
  apply andThen_Normal in Hfirst; destruct Hfirst as (fn & Hfn & Hfirst).
  apply andThen_Normal in Hlast; destruct Hlast as (ln & Hln & Hlast).
  apply andThen_Normal in Hname; destruct Hname as (nm & Hnm & Hname).
  cbn [get] in Hfn, Hln. cbn [mark_sent get].
  rewrite !own_set_field. cbn [String.eqb Ascii.eqb Bool.eqb].
  rewrite Hid. cbn [andThen].
  rewrite Hfn. cbn [andThen]. rewrite Hfirst. cbn [andThen].
  rewrite Hln. cbn [andThen]. rewrite Hlast. cbn [andThen].
  change (match own "facility_name" facility with
          | Some x => Normal x
          | None => Normal JUndefined
          end) with (get (JObj facility) "facility_name").
  rewrite Hnm. cbn [andThen]. rewrite Hname. cbn [fst snd].
  split; [reflexivity |]. split; [reflexivity |].
  unfold saveJsonFile. split; intros ->; reflexivity.
Qed.

Lemma deliver_replies (io : SendIO) (api : option JSValue) (now : string)
    (targetFacilityId : JSValue) (before after : list JSValue)
    (patient facility : JSValue) (st : Store) :
  (exists message sentRecord,
     snd (deliver number_eq io api now targetFacilityId before patient after
            facility st) = Sent message sentRecord)
  \/
  snd (deliver number_eq io api now targetFacilityId before patient after
         facility st) = interop_failure
  \/
  (exists text data status,
     snd (deliver number_eq io api now targetFacilityId before patient after
            facility st) = Refused 500 ("Error from Interop Service: " ++ text) /\
     api = Some data /\ get data "status" = Normal status /\
     strict_equal number_eq status (JStr "success") = false /\
     fst (deliver number_eq io api now targetFacilityId before patient after
            facility st) = st).
Proof.
  unfold deliver.
  destruct api as [data|].
  - destruct (get data "status") as [status|e] eqn:Hstatus; [| right; left; reflexivity].
    destruct (strict_equal number_eq status (JStr "success")) eqn:Heq.
    + destruct (andThen (get (mark_sent patient) "patientId") _)
        as [[id patientName]|e]; [| right; left; reflexivity].
      destruct (andThen (get facility "facility_name") _) as [name|e];
        [left; eexists _, _; reflexivity | right; left; reflexivity].
    + destruct (andThen (get data "error_message") _) as [text|e];
        [| right; left; reflexivity].
      right; right. exists text, data, status. repeat split; assumption.
  - cbn [simulated_response get own String.eqb Ascii.eqb Bool.eqb strict_equal].
    destruct (andThen (get (mark_sent patient) "patientId") _)
      as [[id patientName]|e]; [| right; left; reflexivity].
    destruct (andThen (get facility "facility_name") _) as [name|e];
      [left; eexists _, _; reflexivity | right; left; reflexivity].
Qed.

(** X26: The answer "Error from Interop Service" is given only when the
    service itself answered, with a status other than ["success"]; the
    patient is then not marked and no sent record is written. An
    unreachable service never gets this answer. *)
Theorem interop_error_needs_an_answer (io : SendIO) (api : option JSValue)
    (now : string) (body : JSValue) (st : Store) (text : string) :
  snd (post_send_record number_eq io api now body st)
    = Refused 500 ("Error from Interop Service: " ++ text) ->
  exists data status,
    api = Some data /\ get data "status" = Normal status /\
    strict_equal number_eq status (JStr "success") = false /\
    sent_records_file (fst (fst (post_send_record number_eq io api now body st)))
      = sent_records_file st /\
    patients_file (fst (fst (post_send_record number_eq io api now body st)))
      = fst (loadJsonFile (patients_file st) (patients_io io) []).
Proof.
  unfold post_send_record.
  destruct (andThen (get body "patientId") _) as [[patientId targetFacilityId]|e];
    [| discriminate].
  destruct (negb (truthy patientId) || negb (truthy targetFacilityId));
    [discriminate |].
  destruct (andThen (find_by number_eq "patientId" patientId _) _)
    as [[[[[before patient] after]|] [[[fb facility] fa]|]]|e];
    try discriminate.
  destruct (get facility "preferred_format") as [preferred|e]; [| discriminate].
  cbn [fst snd].
  match goal with
  | |- snd (deliver ?q ?i ?a ?n ?t ?b ?p ?af ?f ?s) = _ -> _ =>
      destruct (deliver_replies i a n t b af p f s)
        as [(m & r & H) | [H | (text' & data & status & H & Ha & Hs & He & Hst)]]
  end; rewrite H; try discriminate.
  intros _. exists data, status. rewrite Hst. repeat split; assumption.
Qed.

(** X27: A refusal with 400 or 404 posts nothing to the interoperability
    service, writes no sent record, and keeps the patients that the file
    held. *)
Theorem refusals_change_nothing (io : SendIO) (api : option JSValue)
    (now : string) (body : JSValue) (st : Store) (status : nat)
    (error : string) :
  snd (post_send_record number_eq io api now body st) = Refused status error ->
  status = 400 \/ status = 404 ->
  snd (fst (post_send_record number_eq io api now body st)) = [] /\
  sent_records_file (fst (fst (post_send_record number_eq io api now body st)))
    = sent_records_file st /\
  forall patients,
    patients_file st = Some patients ->
    patients_file (fst (fst (post_send_record number_eq io api now body st)))
    = Some patients.
Proof.
  unfold post_send_record.
  destruct (andThen (get body "patientId") _) as [[patientId targetFacilityId]|e].
  2:{ intros H [-> | ->]; discriminate. }
  destruct (negb (truthy patientId) || negb (truthy targetFacilityId)).
  { intros _ _. repeat split. intros patients H. exact H. }
  assert (Hkeep : forall patients,
            patients_file st = Some patients ->
            fst (loadJsonFile (patients_file st) (patients_io io) [])
            = Some patients).
  { intros patients ->. cbn. destruct (read_ok (patients_io io)); reflexivity. }
  destruct (andThen (find_by number_eq "patientId" patientId _) _)
    as [[[[[before patient] after]|] [[[fb facility] fa]|]]|e];
    try (intros _ _; repeat split; exact Hkeep).
  destruct (get facility "preferred_format") as [preferred|e];
    [| intros _ _; repeat split; exact Hkeep].
  cbn [fst snd].
  match goal with
  | |- snd (deliver ?q ?i ?a ?n ?t ?b ?p ?af ?f ?s) = _ -> _ =>
      destruct (deliver_replies i a n t b af p f s)
        as [(m & r & H) | [H | (text' & data & st' & H & _)]]
  end; rewrite H; unfold interop_failure; intros E [-> | ->]; discriminate.
Qed.

(** X28: What is posted to the interoperability service is the stored
    patient: a body is posted only when patient and facility were found,
    at most once, and it carries the patient as the file held it and the
    facility's preferred format, or ["fhir"] when it has none. *)
Theorem posted_body_is_the_stored_patient (io : SendIO) (api : option JSValue)
    (now : string) (body : JSValue) (st : Store) (posted : JSValue) :
  In posted (snd (fst (post_send_record number_eq io api now body st))) ->
  exists patientId targetFacilityId before patient after fbefore facility fafter
         preferred,
    get body "patientId" = Normal patientId /\
    get body "targetFacilityId" = Normal targetFacilityId /\
    find_by number_eq "patientId" patientId
      (snd (loadJsonFile (patients_file st) (patients_io io) []))
      = Normal (Some (before, patient, after)) /\
    find_by number_eq "facility_id" targetFacilityId (snd (load_facilities io st))
      = Normal (Some (fbefore, facility, fafter)) /\
    get facility "preferred_format" = Normal preferred /\
    posted = payload_for targetFacilityId preferred patient /\
    snd (fst (post_send_record number_eq io api now body st)) = [posted].
Proof.
  unfold post_send_record.
  destruct (get body "patientId") as [patientId|e] eqn:Hpid; [| intros []].
  destruct (get body "targetFacilityId") as [targetFacilityId|e] eqn:Htid;
    [| intros []].
  cbn [andThen].
  destruct (negb (truthy patientId) || negb (truthy targetFacilityId));
    [intros [] |].
  destruct (find_by number_eq "patientId" patientId _)
    as [found|e] eqn:Hpatient; cbn [andThen]; [| intros []].
  destruct (find_by number_eq "facility_id" targetFacilityId _)
    as [found'|e] eqn:Hfacility; cbn [andThen]; [| intros []].
  destruct found as [[[before patient] after]|]; [| intros []].
  destruct found' as [[[fb facility] fa]|]; [| intros []].
  destruct (get facility "preferred_format") as [preferred|e] eqn:Hpref;
    [| intros []].
  cbn [fst snd]. intros [<- | []].
  exists patientId, targetFacilityId, before, patient, after, fb, facility, fa,
         preferred.
  repeat split; first [assumption | reflexivity].
Qed.

End ClinicSending.

(** * Concrete runs of the further properties *)

Section FurtherInterop.

Import Interop Samples.
#[local] Existing Instance lenient_runtime.

Lemma translate_success_is_validated_witness :
  requested_tool (ai_asks_for (PyStr "convert_hl7_to_fhir"))
    = Ok (PyStr "convert_hl7_to_fhir") /\
  exists translated_data,
    convert_hl7_to_fhir juan = Ok translated_data /\
    validate_fhir_patient translated_data = Ok true.
Proof.
  destruct (translate_success_is_validated _ _ _ _ _ juan_is_translated)
    as (_ & _ & Htool & Hconv & Hval).
  split; [exact Htool |]. eexists. split; [exact Hconv | exact Hval].
Defined.

Lemma convert_reads_four_fields_witness :
  convert_hl7_to_fhir juan =
  convert_hl7_to_fhir
    (("address", PyStr "12 Mabini St") :: juan ++ [("patientId", PyStr "C999")]).
Proof.
  apply convert_reads_four_fields.
  intros k [<- | [<- | [<- | [<- | []]]]]; reflexivity.
Defined.

Lemma translation_needs_last_name_witness :
  translate_data (ai_asks_for (PyStr "convert_hl7_to_fhir"))
    juan_without_last_name
  = (["convert_hl7_to_fhir"],
     HTTPException 500
       "Validation Failed: AI produced an invalid FHIR resource.")
  /\
  exists translated_data,
    translate_data (ai_asks_for (PyStr "convert_hl7_to_fhir")) juan
    = (["convert_hl7_to_fhir"], TranslationResponse "success" translated_data).
Proof.
  split.
  - apply (proj1 (translation_needs_last_name
                    (ai_asks_for (PyStr "convert_hl7_to_fhir"))
                    juan_without_last_name "19800101" eq_refl eq_refl)).
    reflexivity.
  - eexists.
    apply (proj2 (translation_needs_last_name
                    (ai_asks_for (PyStr "convert_hl7_to_fhir"))
                    juan "19800101" eq_refl eq_refl)).
    + discriminate.
    + reflexivity.
    + reflexivity.
Defined.

Lemma missing_date_is_bad_request_witness :
  translate_data (ai_asks_for (PyStr "convert_hl7_to_fhir"))
    [("patientId", PyStr "C123"); ("lastName", PyStr "Dela Cruz")]
  = (["convert_hl7_to_fhir"],
     HTTPException 400
       "Translation error: Missing or malformed HL7 data: 'dateOfBirth'").
Proof.
  apply missing_date_is_bad_request; reflexivity.
Defined.

Lemma unsliceable_date_is_unhandled_witness :
  convert_hl7_to_fhir [("lastName", PyStr "Dela Cruz");
                       ("dateOfBirth", PyInt 19800101)]
  = Raise (TypeError "'int' object is not subscriptable").
Proof.
  apply (proj1 (unsliceable_date_is_unhandled
                  (ai_asks_for (PyStr "convert_hl7_to_fhir"))
                  [("lastName", PyStr "Dela Cruz");
                   ("dateOfBirth", PyInt 19800101)]
                  (PyInt 19800101) eq_refl eq_refl
                  (or_intror (or_intror (or_introl eq_refl))))).
Defined.

Lemma unreadable_ai_answer_witness :
  translate_data (Ok ai_plain_answer) juan
  = ([], HTTPException 500 "AI service error: 'tool_calls'").
Proof.
  destruct (unreadable_ai_answer juan) as (_ & H).
  apply (proj1 (H [("choices",
                    PyList [PyDict [("message",
                      PyDict [("role", PyStr "assistant");
                              ("content", PyStr "Use the tool.")])]])]
                  [("message",
                    PyDict [("role", PyStr "assistant");
                            ("content", PyStr "Use the tool.")])]
                  []
                  [("role", PyStr "assistant");
                   ("content", PyStr "Use the tool.")]
                  eq_refl eq_refl)).
  reflexivity.
Defined.

Lemma validate_reads_type_and_name_witness :
  validate_fhir_patient
    (PyDict [("resourceType", PyStr "Patient");
             ("name", PyList [PyDict [("family", PyStr "Dela Cruz")]])])
  = validate_fhir_patient
      (PyDict [("resourceType", PyStr "Patient");
               ("identifier", PyList [PyDict [("value", PyStr "C123")]]);
               ("name", PyList [PyDict [("family", PyStr "Dela Cruz")]]);
               ("birthDate", PyStr "2999-12-31")]).
Proof.
  apply validate_reads_type_and_name; reflexivity.
Defined.

Lemma non_string_tool_name_witness :
  translate_data (ai_asks_for (PyList [PyStr "convert_hl7_to_fhir"])) juan
  = ([], Unhandled (TypeError "unhashable type: 'list'")).
Proof.
  apply (non_string_tool_name
           (ai_asks_for (PyList [PyStr "convert_hl7_to_fhir"])) juan
           (PyList [PyStr "convert_hl7_to_fhir"]) eq_refl).
  intros s. discriminate.
Defined.

End FurtherInterop.

Section FurtherHospital.

Import Hospital HospitalRuns HospitalApp Samples.
#[local] Existing Instance no_numbers.

Lemma received_records_are_kept_witness :
  (received_patients
     (files (execute (idle initial)
               (one_at_a_time (juan_committed ++ odd_committed ++ juan_received))))
   ++ pending_queue
        (files (execute (idle initial)
                  (one_at_a_time (juan_committed ++ odd_committed ++ juan_received))))
   = [juan_record; record_of "2025-06-01T09:00:00.000Z" odd_fhir; juan_record])%list.
Proof.
  assert (Hff : fault_free (juan_committed ++ odd_committed ++ juan_received))
    by repeat constructor.
  rewrite (proj1 (received_records_are_kept _ initial Hff)).
  reflexivity.
Defined.

Lemma listings_after_a_run_witness :
  get_pending io_ok
    (files (execute (idle initial)
              (one_at_a_time (juan_committed ++ odd_fhir_received))))
  = SearchResults [record_of "2025-06-01T09:00:00.000Z" odd_fhir]
  /\
  get_patients io_ok
    (files (execute (idle initial)
              (one_at_a_time (juan_committed ++ odd_fhir_received))))
  = SearchResults [juan_record].
Proof.
  assert (Hff : fault_free (juan_committed ++ odd_fhir_received))
    by repeat constructor.
  destruct (listings_after_a_run _ Hff) as (Hpending & Hpatients & _).
  split; [exact Hpending | exact Hpatients].
Defined.

Lemma overlapping_receipt_is_lost_witness :
  files
    (execute (idle (run initial juan_received))
       [Arrive ProcessPending;
        Arrive (Receive "2025-06-01T09:00:00.000Z" odd_fhir);
        Resume 0 true; Resume 1 true; Resume 1 true;
        Resume 0 true; Resume 0 true; Resume 0 true])
  = {| pending_queue := []; received_patients := [juan_record] |}.
Proof.
  assert (Hnew : ~ In (record_of "2025-06-01T09:00:00.000Z" odd_fhir)
                     (received_patients (run initial juan_received)
                      ++ pending_queue (run initial juan_received))%list).
  { intros [H | []]. discriminate H. }
  destruct (overlapping_receipt_is_lost (run initial juan_received)
              "2025-06-01T09:00:00.000Z" odd_fhir "true" eq_refl Hnew)
    as (_ & Hfiles & _).
  rewrite Hfiles. reflexivity.
Defined.

Lemma commit_reports_success_unsaved_witness :
  post_process_pending io_no_write (run initial juan_received)
  = (run initial juan_received,
     ProcessAck true "1 records have been processed").
Proof.
  apply (commit_reports_success_unsaved io_no_write (run initial juan_received));
    reflexivity.
Defined.

Lemma failed_read_overwrites_witness :
  pending_queue
    (fst (post_fhir_patient io_pending_unreadable "2025-06-01T09:00:00.000Z"
            odd_fhir (run initial juan_received)))
  = [record_of "2025-06-01T09:00:00.000Z" odd_fhir]
  /\
  snd (post_process_pending io_pending_unreadable (run initial juan_received))
  = ProcessAck true "0 records have been processed".
Proof.
  destruct (failed_read_overwrites io_pending_unreadable
              (run initial juan_received)) as (Hreceipt & _ & Hcommit).
  split.
  - apply Hreceipt; reflexivity.
  - apply Hcommit; reflexivity.
Defined.

Lemma search_fails_iff_witness :
  get_search io_ok (JStr "dela") (run initial (juan_committed ++ odd_committed))
  = ServerError "Search failed".
Proof.
  apply search_fails_iff. split; [reflexivity |]. right.
  exists (record_of "2025-06-01T09:00:00.000Z" odd_fhir).
  split; [right; left; reflexivity | intros id; discriminate].
Defined.

Lemma search_ignores_case_of_term_witness :
  get_search io_ok (JStr "DELA cruz") (run initial juan_committed)
  = get_search io_ok (JStr "dela CRUZ") (run initial juan_committed).
Proof.
  apply search_ignores_case_of_term. reflexivity.
Defined.

Lemma details_of_a_patient_resource_witness :
  patient_id (extractPatientDetails juan_fhir) = JStr "C123" /\
  full_name (extractPatientDetails juan_fhir) = "Juan Dela Cruz".
Proof.
  destruct (details_of_a_patient_resource
              [("resourceType", JStr "Patient");
               ("identifier",
                JArr [JObj [("system", JStr "urn:clinic:patient-id");
                            ("value", JStr "C123")]]);
               ("name", JArr [JObj [("family", JStr "Dela Cruz");
                                    ("given", JArr [JStr "Juan"])]]);
               ("birthDate", JStr "1980-01-01")]
              [("system", JStr "urn:clinic:patient-id"); ("value", JStr "C123")]
              [("family", JStr "Dela Cruz"); ("given", JArr [JStr "Juan"])]
              [] [] [] "C123" "Juan" "Dela Cruz"
              eq_refl eq_refl eq_refl eq_refl eq_refl)
    as (Hid & _ & _ & Hfull & _); try discriminate.
  split; [exact Hid | exact Hfull].
Defined.

Lemma null_block_gives_error_record_witness :
  extractPatientDetails
    (JObj [("identifier", JArr [JObj [("value", JStr "C123")]]);
           ("name", JArr [JNull])])
  = error_details
      (JObj [("identifier", JArr [JObj [("value", JStr "C123")]]);
             ("name", JArr [JNull])]).
Proof.
  apply (null_block_gives_error_record _ []). right. reflexivity.
Defined.


End FurtherHospital.

Section FurtherClinic.

Import Hospital Clinic Samples.
#[local] Existing Instance no_numbers.
#[local] Existing Instance Interop.lenient_runtime.

Lemma formatDateOfBirth_idempotent_witness :
  formatDateOfBirth (formatDateOfBirth (JStr "19800101")) = JStr "1980-01-01"
  /\ exists s, JStr "19800101" = JStr s /\ String.length s = 8.
Proof.
  destruct (formatDateOfBirth_idempotent (JStr "19800101")) as (Hsame & Hlen).
  split; [rewrite Hsame; reflexivity |].
  apply Hlen. discriminate.
Defined.

Lemma date_formats_agree_witness :
  exists birthDate,
    Interop.birth_date Interop.juan = Interop.Ok birthDate /\
    formatDateOfBirth (JStr "19800101") = JStr birthDate.
Proof.
  apply (date_formats_agree Interop.juan "19800101"); reflexivity.
Defined.

Lemma new_patient_id_is_fresh_witness :
  exists newId,
    own "patientId"
      match ana_patient with JObj fields => fields | _ => [] end
    = Some (JStr newId) /\
    forall q, In q clinic_patients -> get q "patientId" <> Normal (JStr newId).
Proof.
  assert (Hshort : forall q s,
            In q (snd (loadJsonFile (Some clinic_patients) file_ok [])) ->
            get q "patientId" = Normal (JStr s) -> String.length s <= 15).
  { intros q s [<- | [<- | []]] H; injection H as <-; cbn; lia. }
  assert (Hpost : post_patients file_ok ana_body (Some clinic_patients)
                  = (Some (clinic_patients ++ [ana_patient])%list,
                     Created ana_patient)) by reflexivity.
  destruct (new_patient_id_is_fresh _ _ _ _ _ Hshort Hpost)
    as (newId & fields & Hp & Hown & _ & Hfresh).
  exists newId. injection Hp as <-. split; [exact Hown | exact Hfresh].
Defined.

Lemma created_means_saved_witness :
  fst (post_patients file_ok ana_body (Some clinic_patients))
  = Some (clinic_patients ++ [ana_patient])%list
  /\
  fst (post_patients {| read_ok := true; create_ok := true; save_ok := false |}
         ana_body (Some clinic_patients))
  = Some clinic_patients.
Proof.
  destruct (created_means_saved file_ok ana_body (Some clinic_patients))
    as (Hsaved & _).
  destruct (created_means_saved
              {| read_ok := true; create_ok := true; save_ok := false |}
              ana_body (Some clinic_patients)) as (_ & Hunsaved).
  split.
  - destruct (Hsaved (Some (clinic_patients ++ [ana_patient])%list) ana_patient
                eq_refl) as (_ & H).
    reflexivity.
  - apply Hunsaved. reflexivity.
Defined.

Lemma gender_must_be_a_string_witness :
  post_patients file_ok (JObj [("firstName", JStr "Ana")]) (Some clinic_patients)
  = (Some clinic_patients, Refused 500 "Failed to add new patient").
Proof.
  apply (gender_must_be_a_string file_ok (JObj [("firstName", JStr "Ana")])
           JUndefined (Some clinic_patients) eq_refl).
  intros g. discriminate.
Defined.

Lemma mark_sent_sets_one_property_witness :
  get (mark_sent maria_patient) "lastName" = Normal (JStr "Santos").
Proof.
  unfold maria_patient.
  rewrite (proj2 (mark_sent_sets_one_property _) "lastName"); [reflexivity |].
  discriminate.
Defined.

Lemma unreachable_service_counts_as_sent_witness :
  snd (post_send_record no_number_eq send_ok None "2025-06-01T10:00:00.000Z"
         send_maria clinic_store)
  = Sent "Patient record for Maria Santos successfully sent to Memorial Hospital"
      (JObj [("patientId", JStr "C002");
             ("patientName", JStr "Maria Santos");
             ("sent_to", JStr "memorial_hospital");
             ("sent_timestamp", JStr "2025-06-01T10:00:00.000Z");
             ("status", JStr "sent")])
  /\
  patients_file
    (fst (fst (post_send_record no_number_eq send_ok None
                 "2025-06-01T10:00:00.000Z" send_maria clinic_store)))
  = Some [juan_patient; mark_sent maria_patient].
Proof.
  destruct (unreachable_service_counts_as_sent no_number_eq send_ok
              "2025-06-01T10:00:00.000Z" send_maria clinic_store
              (JStr "C002") (JStr "memorial_hospital") (JStr "fhir")
              [juan_patient] [] [] []
              [("patientId", JStr "C002"); ("firstName", JStr "Maria");
               ("lastName", JStr "Santos"); ("dateOfBirth", JStr "19751120");
               ("gender", JStr "female"); ("sent_to_hospital", JBool false)]
              [("facility_id", JStr "memorial_hospital");
               ("facility_name", JStr "Memorial Hospital");
               ("type", JStr "hospital");
               ("preferred_format", JStr "fhir")]
              "Maria" "Santos" "Memorial Hospital"
              eq_refl eq_refl eq_refl eq_refl eq_refl eq_refl eq_refl
              eq_refl eq_refl eq_refl)
    as (id & sentRecord & Hid & _ & Hrecord & Hreply & _ & Hpatients & _).
  injection Hid as <-. subst sentRecord.
  split; [exact Hreply | apply Hpatients; reflexivity].
Defined.

Lemma interop_error_needs_an_answer_witness :
  snd (post_send_record no_number_eq send_ok (Some interop_error)
         "2025-06-01T10:00:00.000Z" send_maria clinic_store)
  = Refused 500 "Error from Interop Service: Validation Failed"
  /\
  patients_file
    (fst (fst (post_send_record no_number_eq send_ok (Some interop_error)
                 "2025-06-01T10:00:00.000Z" send_maria clinic_store)))
  = Some clinic_patients.
Proof.
  assert (Hreply : snd (post_send_record no_number_eq send_ok (Some interop_error)
                          "2025-06-01T10:00:00.000Z" send_maria clinic_store)
                   = Refused 500
                       ("Error from Interop Service: " ++ "Validation Failed"))
    by reflexivity.
  destruct (interop_error_needs_an_answer no_number_eq _ _ _ _ _ _ Hreply)
    as (data & status & _ & _ & _ & _ & Hpatients).
  split; [exact Hreply | exact Hpatients].
Defined.

Lemma refusals_change_nothing_witness :
  snd (post_send_record no_number_eq send_ok None "2025-06-01T10:00:00.000Z"
         send_stranger clinic_store)
  = Refused 404 "Patient not found"
  /\
  snd (fst (post_send_record no_number_eq send_ok None
              "2025-06-01T10:00:00.000Z" send_stranger clinic_store)) = [].
Proof.
  assert (Hreply : snd (post_send_record no_number_eq send_ok None
                          "2025-06-01T10:00:00.000Z" send_stranger clinic_store)
                   = Refused 404 "Patient not found") by reflexivity.
  split; [exact Hreply |].
  apply (refusals_change_nothing no_number_eq _ _ _ _ _ _ _ Hreply).
  right. reflexivity.
Defined.

Lemma posted_body_is_the_stored_patient_witness :
  snd (fst (post_send_record no_number_eq send_ok None
              "2025-06-01T10:00:00.000Z" send_maria clinic_store))
  = [payload_for (JStr "memorial_hospital") (JStr "fhir") maria_patient].
Proof.
  destruct (posted_body_is_the_stored_patient no_number_eq send_ok None
              "2025-06-01T10:00:00.000Z" send_maria clinic_store
              (payload_for (JStr "memorial_hospital") (JStr "fhir") maria_patient)
              (or_introl eq_refl))
    as (pid & tid & b & p & a & fb & f & fa & pref & _ & _ & _ & _ & _ & _ & H).
  exact H.
Defined.

End FurtherClinic.
